(** * A shallow embedding of the blackjack engine of [blackjack.py]

    Cards, hands, the shoe ([Deck]), the player and the [Blackjack] round
    object are modelled as the Python code has them.  Money (bets,
    bankroll, payouts) is a Python float holding 2-decimal amounts; it is
    modelled exactly as [Q].  [random.shuffle] is the [shuffle] argument of
    the operations that reshuffle.  The [GameEvent] records appended to the
    event lists, and their timestamps, are left out; the expressions the
    code evaluates to build them ([str(hand)], [hand.get_value()],
    [self.get_dealer_upcard()]) are kept, since they can raise.

    [Hand.get_value] calls [Hand.is_blackjack], which calls
    [Hand.get_value] again whenever the hand holds exactly two cards: on
    such a hand the two methods recurse until Python raises
    [RecursionError].  The model counts the nested calls against the
    interpreter's recursion limit and raises [RecursionError] when they
    run out. *)

From Stdlib Require Import String Ascii.
From Stdlib Require Import List Arith Lia QArith ZArith Bool Permutation Lqa.
Import ListNotations.
Open Scope nat_scope.

(** ** Cards *)

Inductive Suit := Spades | Clubs | Hearts | Diamonds.

Inductive Rank :=
  R2 | R3 | R4 | R5 | R6 | R7 | R8 | R9 | R10 | J | Q_ | K | A.

Definition rank_eqb (r s : Rank) : bool :=
  match r, s with
  | R2, R2 | R3, R3 | R4, R4 | R5, R5 | R6, R6 | R7, R7 | R8, R8
  | R9, R9 | R10, R10 | J, J | Q_, Q_ | K, K | A, A => true
  | _, _ => false
  end.

Record Card := mkCard { suit : Suit; rank : Rank }.

(** [Card.get_value]: J/Q/K count 10, an ace 11, the others [int(rank)]. *)
Definition card_get_value (c : Card) : nat :=
  match rank c with
  | J | Q_ | K => 10
  | A => 11
  | R2 => 2 | R3 => 3 | R4 => 4 | R5 => 5 | R6 => 6 | R7 => 7
  | R8 => 8 | R9 => 9 | R10 => 10
  end.

Definition is_ace (c : Card) : bool := rank_eqb (rank c) A.

(** ** Rules ([BlackjackRules]) *)

Record BlackjackRules := mkRules {
  deck_penetration : Q;
  max_splits : nat;
  allow_resplit_aces : bool;
  allow_double_after_split : bool;
  allow_surrender : bool;
  early_surrender : bool;
  insurance_offered : bool;
  even_money_offered : bool;
  min_bet : Q;
  max_bet : Q;
  number_of_decks : nat;
  blackjack_payout : Q;
  insurance_payout : Q
}.

Definition default_rules : BlackjackRules :=
  mkRules (4 # 5) 3 false true true true true true 10%Q 500%Q 6 (3 # 2) 2%Q.

(** Comparisons on money, as Python evaluates [<] and [<=] on floats. *)
Definition Qlt_b (x y : Q) : bool := negb (Qle_bool y x).
Definition Qle_b (x y : Q) : bool := Qle_bool x y.

(** ** Hands ([Hand]) *)

Record Hand := mkHand {
  cards : list Card;
  bet : Q;
  is_split : bool;
  is_doubled : bool;
  is_surrendered : bool;
  original_bet : Q;
  split_from_aces : bool;
  insurance_bet : Q;
  took_even_money : bool
}.

(** [Hand()] *)
Definition new_hand : Hand :=
  mkHand [] 0%Q false false false 0%Q false 0%Q false.

Definition set_cards (h : Hand) (cs : list Card) : Hand :=
  mkHand cs (bet h) (is_split h) (is_doubled h) (is_surrendered h)
    (original_bet h) (split_from_aces h) (insurance_bet h) (took_even_money h).

Definition non_ace_value (cs : list Card) : nat :=
  fold_right (fun c acc => card_get_value c + acc) 0
    (filter (fun c => negb (is_ace c)) cs).

Definition ace_count (cs : list Card) : nat :=
  length (filter is_ace cs).

(** The first component of [Hand.get_value]. *)
Definition hand_value (h : Hand) : nat :=
  let value := non_ace_value (cards h) + ace_count (cards h) in
  if (0 <? ace_count (cards h)) && (value + 10 <=? 21)
  then value + 10 else value.

(** [Hand.get_value] and [Hand.is_blackjack] with [fuel] nested calls
    left before the interpreter's recursion limit; [None] is the
    [RecursionError] raised when they run out.  [and] short-circuits, so
    [is_blackjack] calls [get_value] only on a hand of two cards. *)
Fixpoint get_value_rec (fuel : nat) (h : Hand) : option (nat * bool) :=
  match fuel with
  | 0 => None
  | S fuel' =>
      match is_blackjack_rec fuel' h with
      | Some bj => Some (hand_value h, bj)
      | None => None
      end
  end
with is_blackjack_rec (fuel : nat) (h : Hand) : option bool :=
  match fuel with
  | 0 => None
  | S fuel' =>
      if length (cards h) =? 2 then
        match get_value_rec fuel' h with
        | Some (v, _) =>
            Some ((v =? 21) && negb (is_split h) && negb (took_even_money h))
        | None => None
        end
      else Some false
  end.

(** Python's default recursion limit. *)
Definition recursion_limit : nat := 1000.

(** [Hand.get_value] *)
Definition get_value (h : Hand) : option (nat * bool) :=
  get_value_rec recursion_limit h.

(** [Hand.is_blackjack] *)
Definition is_blackjack (h : Hand) : option bool :=
  is_blackjack_rec recursion_limit h.

(** [Hand.is_busted] *)
Definition is_busted (h : Hand) : option bool :=
  match get_value h with
  | Some (v, _) => Some (21 <? v)
  | None => None
  end.

(** [Hand.is_done]: [or] evaluates its operands left to right and stops
    at the first true one. *)
Definition is_done (h : Hand) : option bool :=
  match is_busted h with
  | None => None
  | Some true => Some true
  | Some false =>
      match is_blackjack h with
      | None => None
      | Some true => Some true
      | Some false =>
          Some (is_surrendered h || took_even_money h
                || (is_doubled h && (2 <? length (cards h)))
                || (split_from_aces h && (1 <? length (cards h))))
      end
  end.

Definition is_soft (h : Hand) : bool :=
  (0 <? ace_count (cards h))
  && (non_ace_value (cards h) + ace_count (cards h) - 1 + 11 <=? 21).

(** [Hand.get_status], which [str(hand)] calls, up to the string it
    builds: [Some tt] when it returns, [None] when it raises.  The
    suffixes it appends read flags only and cannot raise. *)
Definition hand_str (h : Hand) : option unit :=
  match get_value h with
  | None => None
  | Some (_, bj) =>
      if is_surrendered h then Some tt else
      match is_busted h with
      | None => None
      | Some true => Some tt
      | Some false =>
          if bj then Some tt else
          if took_even_money h then Some tt else
          match is_done h with
          | None => None
          | Some _ => Some tt
          end
      end
  end.

(** [Hand.add_card]: the hand after the call (the object is mutated
    before a raise) and the returned flag, [None] where it raises.  After
    the append, the event it logs evaluates [str(self.get_value()[0])] and
    then [str(self)]. *)
Definition add_card (h : Hand) (c : Card) : Hand * option bool :=
  match is_done h with
  | None => (h, None)
  | Some true => (h, Some false)
  | Some false =>
      let h' := set_cards h (cards h ++ [c]) in
      match get_value h' with
      | None => (h', None)
      | Some _ =>
          match hand_str h' with
          | None => (h', None)
          | Some _ => (h', Some true)
          end
      end
  end.

Definition can_split (rules : BlackjackRules) (h : Hand) : bool :=
  match cards h with
  | [c0; c1] =>
      if rank_eqb (rank c0) (rank c1) && negb (is_doubled h)
         && negb (is_surrendered h)
      then (if is_ace c0 then negb (is_split h) || allow_resplit_aces rules
            else true)
      else false
  | _ => false
  end.

Definition can_double (rules : BlackjackRules) (h : Hand) : bool :=
  (length (cards h) =? 2) && negb (is_doubled h) && negb (is_surrendered h)
  && (negb (is_split h) || allow_double_after_split rules).

Definition can_surrender (rules : BlackjackRules) (h : Hand) : bool :=
  allow_surrender rules && (length (cards h) =? 2) && negb (is_split h)
  && negb (is_doubled h) && negb (is_surrendered h).

(** [Hand.can_take_even_money]; [None] where [is_blackjack] raises. *)
Definition can_take_even_money (rules : BlackjackRules) (h : Hand)
    (dealer_upcard : Card) : option bool :=
  if negb (even_money_offered rules) then Some false else
  match is_blackjack h with
  | None => None
  | Some bj => Some (bj && is_ace dealer_upcard && negb (took_even_money h))
  end.

(** ** The shoe ([Deck]) *)

Record Deck := mkDeck { deck_cards : list Card; discard_pile : list Card }.

Definition suits : list Suit := [Spades; Clubs; Hearts; Diamonds].
Definition ranks : list Rank := [R2; R3; R4; R5; R6; R7; R8; R9; R10; J; Q_; K; A].

(** [[Card(suit, rank) for _ in range(decks) for suit in suits for rank in ranks]] *)
Definition full_shoe (decks : nat) : list Card :=
  concat (repeat (concat (map (fun s => map (fun r => mkCard s r) ranks) suits))
            decks).

(** [list.pop()]: the list without its last element and that element;
    [None] where Python raises [IndexError] on an empty list. *)
Definition pop_last {X} (l : list X) : option (list X * X) :=
  match rev l with
  | [] => None
  | x :: r => Some (rev r, x)
  end.

(** The outcome of [Deck.draw]: a card and the shoe after the call, the
    [return None] branch, or the [IndexError] of [list.pop()] on an empty
    list, with the shoe as it is when the exception is raised. *)
Inductive DrawResult :=
| Drawn (c : Card) (d : Deck)
| Exhausted (d : Deck)
| DrawIndexError (d : Deck).

Section Shoe.
Variable shuffle : list Card -> list Card.
Variable rules : BlackjackRules.

(** [Deck.reset] *)
Definition deck_reset : Deck :=
  mkDeck (shuffle (full_shoe (number_of_decks rules))) [].

(** The last three lines of [Deck.draw]. *)
Definition deck_pop (d : Deck) : DrawResult :=
  match pop_last (deck_cards d) with
  | None => DrawIndexError d
  | Some (rest, c) => Drawn c (mkDeck rest (discard_pile d ++ [c]))
  end.

(** [Deck.draw] *)
Definition deck_draw (d : Deck) : DrawResult :=
  match deck_cards d with
  | [] =>
      let total_cards := length (deck_cards d) + length (discard_pile d) in
      if Qlt_b (inject_Z (Z.of_nat (length (discard_pile d))))
               (inject_Z (Z.of_nat total_cards) * (1 - deck_penetration rules))%Q
      then deck_pop deck_reset
      else Exhausted d
  | _ => deck_pop d
  end.
End Shoe.

(** ** Results and statistics *)

Inductive GameResult := WIN | LOSE | PUSH | SURRENDER | BLACKJACK.

Inductive RoundState :=
  NOT_STARTED | INITIAL_DEAL | PLAYER_TURN | DEALER_TURN | COMPLETE.

Definition round_state_eqb (a b : RoundState) : bool :=
  match a, b with
  | NOT_STARTED, NOT_STARTED | INITIAL_DEAL, INITIAL_DEAL
  | PLAYER_TURN, PLAYER_TURN | DEALER_TURN, DEALER_TURN
  | COMPLETE, COMPLETE => true
  | _, _ => false
  end.

Record WagerStats := mkWagers {
  original_wagers : Q;
  additional_wagers : Q;
  insurance_wagers : Q
}.

(** [GameStatistics] without its wall-clock fields. *)
Record GameStatistics := mkStats {
  hands_played : nat;
  hands_won : nat;
  hands_lost : nat;
  hands_pushed : nat;
  hands_surrendered : nat;
  blackjacks : nat;
  splits : nat;
  doubles : nat;
  insurances_taken : nat;
  insurances_won : nat;
  total_won : Q;
  total_lost : Q;
  biggest_win : Q;
  biggest_loss : Q;
  wagers : WagerStats
}.

Definition zero_stats : GameStatistics :=
  mkStats 0 0 0 0 0 0 0 0 0 0 0%Q 0%Q 0%Q 0%Q (mkWagers 0%Q 0%Q 0%Q).

(** Python's [max(a, b)]. *)
Definition Qmax_py (a b : Q) : Q := if Qlt_b a b then b else a.

(** The [if]/[elif] chain of [Player.update_stats]: the counters it
    updates before the event it logs. *)
Definition update_counts (st : GameStatistics) (result : GameResult)
    (amount : Q) (h : Hand) : GameStatistics :=
  let net_win := if Qlt_b 0 amount then (amount - original_bet h)%Q
                 else (- original_bet h)%Q in
  let '(mkStats pl wo lo pu su bj sp db it iw tw tl bw bl wg) := st in
  match result with
  | WIN => mkStats pl (S wo) lo pu su bj sp db it iw (tw + net_win)%Q tl
             (Qmax_py bw net_win) bl wg
  | LOSE => mkStats pl wo (S lo) pu su bj sp db it iw tw (tl + original_bet h)%Q
             bw (Qmax_py bl (original_bet h)) wg
  | BLACKJACK => mkStats pl (S wo) lo pu su (S bj) sp db it iw (tw + net_win)%Q tl
             (Qmax_py bw net_win) bl wg
  | SURRENDER => mkStats pl wo lo pu (S su) bj sp db it iw tw
             (tl + original_bet h * (1 # 2))%Q bw bl wg
  | PUSH => mkStats pl wo lo (S pu) su bj sp db it iw tw tl bw bl wg
  end.

(** The last line of [Player.update_stats]: [hands_played += 1]. *)
Definition incr_played (st : GameStatistics) : GameStatistics :=
  let '(mkStats pl wo lo pu su bj sp db it iw tw tl bw bl wg) := st in
  mkStats (S pl) wo lo pu su bj sp db it iw tw tl bw bl wg.

(** The counter updates done inline by [double_down], [split],
    [place_insurance] and [place_bet]. *)
Definition stats_double (st : GameStatistics) (extra : Q) : GameStatistics :=
  let '(mkStats pl wo lo pu su bj sp db it iw tw tl bw bl (mkWagers ow aw iwg)) := st in
  mkStats pl wo lo pu su bj sp (S db) it iw tw tl bw bl (mkWagers ow (aw + extra)%Q iwg).

Definition stats_split (st : GameStatistics) (extra : Q) : GameStatistics :=
  let '(mkStats pl wo lo pu su bj sp db it iw tw tl bw bl (mkWagers ow aw iwg)) := st in
  mkStats pl wo lo pu su bj (S sp) db it iw tw tl bw bl (mkWagers ow (aw + extra)%Q iwg).

Definition stats_insurance (st : GameStatistics) (amt : Q) : GameStatistics :=
  let '(mkStats pl wo lo pu su bj sp db it iw tw tl bw bl (mkWagers ow aw iwg)) := st in
  mkStats pl wo lo pu su bj sp db (S it) iw tw tl bw bl (mkWagers ow aw (iwg + amt)%Q).

Definition stats_insurance_won (st : GameStatistics) : GameStatistics :=
  let '(mkStats pl wo lo pu su bj sp db it iw tw tl bw bl wg) := st in
  mkStats pl wo lo pu su bj sp db it (S iw) tw tl bw bl wg.

Definition stats_bet (st : GameStatistics) (amt : Q) : GameStatistics :=
  let '(mkStats pl wo lo pu su bj sp db it iw tw tl bw bl (mkWagers ow aw iwg)) := st in
  mkStats pl wo lo pu su bj sp db it iw tw tl bw bl (mkWagers (ow + amt)%Q aw iwg).

(** ** Player, round result and the [Blackjack] object *)

Record Player := mkPlayer {
  bankroll : Q;
  hands : list Hand;
  stats : GameStatistics
}.

(** [RoundResult]; the string snapshots of the hands are kept as the hands
    themselves, the event list is left out. *)
Record RoundResult := mkRoundResult {
  hand_results : list (GameResult * Q);
  total_win_loss : Q;
  insurance_result : option Q;
  dealer_snapshot : Hand;
  player_snapshots : list Hand
}.

Record Game := mkGame {
  deck : Deck;
  player : Player;
  dealer_hand : Hand;
  round_state : RoundState
}.

(** The errors: every [GameError] raised by the module, by message, the
    [IndexError] of Python list indexing and the [RecursionError] of
    [Hand.get_value]. *)
Inductive GameError :=
| ErrNoCards            (* "No cards available" *)
| ErrNoFunds            (* "Player has no funds" *)
| ErrNotStarted         (* "Round hasn't started" *)
| ErrComplete           (* "Round is complete" *)
| ErrPrevRound          (* "Previous round not complete" *)
| ErrBetRange           (* "Bet must be between ..." *)
| ErrBetUnits           (* "Bet must be in valid currency units ..." *)
| ErrInsufficientFunds  (* "Insufficient funds for bet" *)
| IndexError
| RecursionError.

(** ** A state and exception monad over [Game]

    A raised exception keeps the state reached when it is raised: Python
    does not undo the mutations made before a [raise]. *)
Inductive Res (X : Type) :=
| Raise (e : GameError) (g : Game)
| Ret (x : X) (g : Game).
Arguments Raise {X} e g.
Arguments Ret {X} x g.

Definition M (X : Type) := Game -> Res X.

Definition ret {X} (x : X) : M X := fun g => Ret x g.
Definition raise {X} (e : GameError) : M X := fun g => Raise e g.
Definition bind {X Y} (m : M X) (k : X -> M Y) : M Y :=
  fun g => match m g with
           | Raise e g' => Raise e g'
           | Ret x g' => k x g'
           end.

Notation "x <- m ;; k" := (bind m (fun x => k))
  (at level 61, m at next level, right associativity).
Notation "m ;;; k" := (bind m (fun _ => k))
  (at level 61, right associativity).

Definition gets {X} (f : Game -> X) : M X := fun g => Ret (f g) g.
Definition modify (f : Game -> Game) : M unit := fun g => Ret tt (f g).

Definition set_deck (d : Deck) (g : Game) : Game :=
  mkGame d (player g) (dealer_hand g) (round_state g).
Definition set_player (p : Player) (g : Game) : Game :=
  mkGame (deck g) p (dealer_hand g) (round_state g).
Definition set_dealer (h : Hand) (g : Game) : Game :=
  mkGame (deck g) (player g) h (round_state g).
Definition set_state (s : RoundState) (g : Game) : Game :=
  mkGame (deck g) (player g) (dealer_hand g) s.

Definition add_bankroll (x : Q) (g : Game) : Game :=
  let p := player g in
  set_player (mkPlayer (bankroll p + x)%Q (hands p) (stats p)) g.
Definition set_hands (hs : list Hand) (g : Game) : Game :=
  let p := player g in set_player (mkPlayer (bankroll p) hs (stats p)) g.
Definition map_stats (f : GameStatistics -> GameStatistics) (g : Game) : Game :=
  let p := player g in set_player (mkPlayer (bankroll p) (hands p) (f (stats p))) g.

(** [list[i] = x]: Python raises [IndexError] out of range. *)
Fixpoint list_set {X} (l : list X) (i : nat) (x : X) : option (list X) :=
  match l, i with
  | [], _ => None
  | _ :: r, 0 => Some (x :: r)
  | y :: r, S i' => option_map (cons y) (list_set r i' x)
  end.

(** [list.insert(i, x)] for [0 <= i]: past the end it appends. *)
Fixpoint list_insert {X} (l : list X) (i : nat) (x : X) : list X :=
  match l, i with
  | _, 0 => x :: l
  | [], S _ => [x]
  | y :: r, S i' => y :: list_insert r i' x
  end.

(** [self.player.hands[i]] *)
Definition get_hand (i : nat) : M Hand :=
  fun g => match nth_error (hands (player g)) i with
           | Some h => Ret h g
           | None => Raise IndexError g
           end.

(** A mutation of the hand object [self.player.hands[i]]. *)
Definition put_hand (i : nat) (h : Hand) : M unit :=
  fun g => match list_set (hands (player g)) i h with
           | Some hs => Ret tt (set_hands hs g)
           | None => Raise IndexError g
           end.

(** [get_dealer_upcard]: [self.dealer_hand.cards[0]]. *)
Definition get_dealer_upcard : M Card :=
  fun g => match cards (dealer_hand g) with
           | c :: _ => Ret c g
           | [] => Raise IndexError g
           end.

(** A call that raises [RecursionError] where the model of the called
    method returns [None]. *)
Definition lift {X} (o : option X) : M X :=
  fun g => match o with
           | Some x => Ret x g
           | None => Raise RecursionError g
           end.

(** [all(hand.is_done() for hand in hands)]: stops at the first hand that
    is not done. *)
Fixpoint all_done (hs : list Hand) : option bool :=
  match hs with
  | [] => Some true
  | h :: hs' =>
      match is_done h with
      | None => None
      | Some false => Some false
      | Some true => all_done hs'
      end
  end.

(** [[str(hand) for hand in hands]] *)
Fixpoint all_str (hs : list Hand) : option unit :=
  match hs with
  | [] => Some tt
  | h :: hs' =>
      match hand_str h with
      | None => None
      | Some _ => all_str hs'
      end
  end.

(** [self.player.update_stats(result, amount, hand)]: the counters, then
    the event whose [player_cards] is [str(hand)], then [hands_played].
    Its [hand_index] is [self.hands.index(hand)], which finds the hand:
    every caller passes a hand of [self.player.hands]. *)
Definition player_update_stats (result : GameResult) (amount : Q) (h : Hand)
    : M unit :=
  modify (map_stats (fun st => update_counts st result amount h)) ;;;
  lift (hand_str h) ;;;
  modify (map_stats incr_played).

(** Attribute assignments on a hand object. *)
Definition set_bets (h : Hand) (b ob : Q) : Hand :=
  mkHand (cards h) b (is_split h) (is_doubled h) (is_surrendered h) ob
    (split_from_aces h) (insurance_bet h) (took_even_money h).
Definition set_doubled (h : Hand) : Hand :=
  mkHand (cards h) (bet h * 2)%Q (is_split h) true (is_surrendered h) (original_bet h)
    (split_from_aces h) (insurance_bet h) (took_even_money h).
Definition set_is_split (h : Hand) : Hand :=
  mkHand (cards h) (bet h) true (is_doubled h) (is_surrendered h) (original_bet h)
    (split_from_aces h) (insurance_bet h) (took_even_money h).
Definition set_split_from_aces (h : Hand) : Hand :=
  mkHand (cards h) (bet h) (is_split h) (is_doubled h) (is_surrendered h)
    (original_bet h) true (insurance_bet h) (took_even_money h).
Definition set_surrendered (h : Hand) : Hand :=
  mkHand (cards h) (bet h) (is_split h) (is_doubled h) true (original_bet h)
    (split_from_aces h) (insurance_bet h) (took_even_money h).
Definition set_insurance (h : Hand) (x : Q) : Hand :=
  mkHand (cards h) (bet h) (is_split h) (is_doubled h) (is_surrendered h)
    (original_bet h) (split_from_aces h) x (took_even_money h).
Definition set_even_money (h : Hand) : Hand :=
  mkHand (cards h) (bet h) (is_split h) (is_doubled h) (is_surrendered h)
    (original_bet h) (split_from_aces h) (insurance_bet h) true.

(** [Blackjack.resolve_hand] against the dealer hand [dh]; [None] where
    [get_value] raises. *)
Definition resolve_hand (rules : BlackjackRules) (dh h : Hand)
    : option (GameResult * Q) :=
  if is_surrendered h then Some (SURRENDER, bet h * (1 # 2))%Q else
  match get_value h with
  | None => None
  | Some (player_value, player_blackjack) =>
  match get_value dh with
  | None => None
  | Some (dealer_value, dealer_blackjack) =>
  Some (
  if 21 <? player_value then (LOSE, 0%Q) else
  if 21 <? dealer_value then (WIN, bet h * 2)%Q else
  if player_blackjack && negb (is_split h) && negb dealer_blackjack
  then (BLACKJACK, bet h * (1 + blackjack_payout rules))%Q else
  if dealer_blackjack && negb (player_blackjack && negb (is_split h))
  then (LOSE, 0%Q) else
  if player_blackjack && dealer_blackjack && negb (is_split h)
  then (PUSH, bet h) else
  if dealer_value <? player_value then (WIN, bet h * 2)%Q
  else if player_value <? dealer_value then (LOSE, 0%Q)
  else (PUSH, bet h))
  end
  end.

(** The decorated methods, named as [validate_game_state] sees them
    through [f.__name__]. *)
Inductive FName :=
  FStartRound | FHit | FDoubleDown | FSplit | FSurrender | FPlaceInsurance
| FTakeEvenMoney | FFinishRound | FPlayRound.

(** [validate_game_state] wrapped around the method body [body]. *)
Definition validate {X} (f : FName) (body : M X) : M X :=
  fun g =>
    if match deck_cards (deck g), discard_pile (deck g) with
       | [], [] => true | _, _ => false end
    then Raise ErrNoCards g
    else if Qle_b (bankroll (player g)) 0 then Raise ErrNoFunds g
    else match f with
         | FStartRound => body g
         | _ =>
             let exempt := match f with
                           | FPlayRound | FStartRound => true
                           | _ => false end in
             if round_state_eqb (round_state g) NOT_STARTED && negb exempt
             then Raise ErrNotStarted g
             else if round_state_eqb (round_state g) COMPLETE && negb exempt
             then Raise ErrComplete g
             else body g
         end.

(** [amount == round(amount, 2)] on an exact amount. *)
Definition is_cents (x : Q) : bool :=
  Z.eqb (Zpos (Qden (Qred (x * 100)))) 1.

(** [Player._validate_bet] *)
Definition validate_bet (p : Player) (amount : Q) : bool :=
  Qlt_b 0 amount && is_cents amount && Qle_b amount (bankroll p).

Section Engine.
Variable shuffle : list Card -> list Card.
Variable rules : BlackjackRules.

(** [self.deck.draw()] *)
Definition draw : M (option Card) :=
  fun g => match deck_draw shuffle rules (deck g) with
           | Drawn c d => Ret (Some c) (set_deck d g)
           | Exhausted d => Ret None (set_deck d g)
           | DrawIndexError d => Raise IndexError (set_deck d g)
           end.

(** [Blackjack(name, initial_bankroll, rules)] *)
Definition new_game (initial_bankroll : Q) : Game :=
  mkGame (deck_reset shuffle rules)
    (mkPlayer initial_bankroll [new_hand] zero_stats) new_hand NOT_STARTED.

(** [Player.place_bet] *)
Definition place_bet (amount : Q) : M bool :=
  p <- gets player ;;
  if negb (validate_bet p amount) then ret false else
  modify (add_bankroll (- amount)) ;;;
  h0 <- get_hand 0 ;;
  put_hand 0 (set_bets h0 amount amount) ;;;
  modify (map_stats (fun st => stats_bet st amount)) ;;;
  ret true.

(** The [for _ in range(2)] loop of [deal_initial_cards].  The flags
    returned by the two [add_card] calls are ignored. *)
Fixpoint deal_loop (n : nat) : M bool :=
  match n with
  | 0 => ret true
  | S n' =>
      pc <- draw ;;
      dc <- draw ;;
      match pc, dc with
      | Some pc, Some dc =>
          h0 <- get_hand 0 ;;
          let '(h0', added) := add_card h0 pc in
          put_hand 0 h0' ;;;
          _ <- lift added ;;
          dh <- gets dealer_hand ;;
          let '(dh', added') := add_card dh dc in
          modify (set_dealer dh') ;;;
          _ <- lift added' ;;
          deal_loop n'
      | _, _ => ret false
      end
  end.

(** [Blackjack.deal_initial_cards] *)
Definition deal_initial_cards : M bool :=
  modify (set_hands [new_hand]) ;;;
  modify (set_dealer new_hand) ;;;
  ok <- deal_loop 2 ;;
  if ok then modify (set_state INITIAL_DEAL) ;;; ret true else ret false.

(** [Blackjack.start_round] *)
Definition start_round (bet_amount : Q) : M bool :=
  validate FStartRound (
    st <- gets round_state ;;
    if negb (round_state_eqb st NOT_STARTED) then raise ErrPrevRound else
    if Qlt_b bet_amount (min_bet rules) || Qlt_b (max_bet rules) bet_amount
    then raise ErrBetRange else
    if negb (is_cents bet_amount) then raise ErrBetUnits else
    placed <- place_bet bet_amount ;;
    if negb placed then raise ErrInsufficientFunds else
    dealt <- deal_initial_cards ;;
    if negb dealt then ret false else
    modify (set_state PLAYER_TURN) ;;; ret true).

(** [Blackjack.hit] on the hand [self.player.hands[i]].  The event logged
    on success evaluates [self.player.hands.index(hand)] (here [i]), then
    [str(hand)], then [str(self.get_dealer_upcard())]. *)
Definition hit (i : nat) : M bool :=
  validate FHit (
    h <- get_hand i ;;
    done <- lift (is_done h) ;;
    if done then ret false else
    card <- draw ;;
    match card with
    | None => ret false
    | Some c =>
        let '(h', added) := add_card h c in
        put_hand i h' ;;;
        success <- lift added ;;
        if success then
          lift (hand_str h') ;;;
          _ <- get_dealer_upcard ;;
          ret success
        else ret success
    end).

(** [Blackjack.double_down] on the hand [self.player.hands[i]].  The event
    logged on success evaluates [str(hand)]. *)
Definition double_down (i : nat) : M bool :=
  validate FDoubleDown (
    h <- get_hand i ;;
    br <- gets (fun g => bankroll (player g)) ;;
    if negb (can_double rules h) || Qlt_b br (bet h) then ret false else
    modify (add_bankroll (- bet h)) ;;;
    put_hand i (set_doubled h) ;;;
    modify (map_stats (fun st => stats_double st (original_bet h))) ;;;
    success <- hit i ;;
    if success then
      h' <- get_hand i ;;
      lift (hand_str h') ;;;
      ret success
    else ret success).

(** [Blackjack.split(hand_index)].  [original_hand] is the object stored
    in the list, so each assignment to it is written back at once;
    [new_hand] is a local object until it is inserted.  The flag returned
    by each [add_card] is ignored. *)
Definition split (hand_index : nat) : M bool :=
  validate FSplit (
    hs <- gets (fun g => hands (player g)) ;;
    if max_splits rules + 1 <=? length hs then ret false else
    original_hand <- get_hand hand_index ;;
    if negb (can_split rules original_hand) then ret false else
    br <- gets (fun g => bankroll (player g)) ;;
    if Qlt_b br (original_bet original_hand) then ret false else
    let nh0 := mkHand [] (original_bet original_hand) true false false
                 (original_bet original_hand) false 0%Q false in
    match pop_last (cards original_hand) with
    | None => raise IndexError
    | Some (rest, second) =>
        let oh1 := set_cards original_hand rest in
        put_hand hand_index oh1 ;;;
        let '(nh1, added0) := add_card nh0 second in
        _ <- lift added0 ;;
        match rest with
        | [] => raise IndexError
        | first :: _ =>
            let is_aces := is_ace first in
            let oh2 := if is_aces then set_split_from_aces oh1 else oh1 in
            let nh2 := if is_aces then set_split_from_aces nh1 else nh1 in
            let oh3 := set_is_split oh2 in
            put_hand hand_index oh3 ;;;
            card <- draw ;;
            match card with
            | None => ret false
            | Some c1 =>
                let '(oh4, added1) := add_card oh3 c1 in
                put_hand hand_index oh4 ;;;
                _ <- lift added1 ;;
                card' <- draw ;;
                match card' with
                | None => ret false
                | Some c2 =>
                    let '(nh3, added2) := add_card nh2 c2 in
                    _ <- lift added2 ;;
                    hs' <- gets (fun g => hands (player g)) ;;
                    modify (set_hands (list_insert hs' (S hand_index) nh3)) ;;;
                    modify (add_bankroll (- bet oh4)) ;;;
                    modify (map_stats (fun st =>
                              stats_split st (original_bet oh4))) ;;;
                    ret true
                end
            end
        end
    end).

(** [Blackjack.surrender] on [self.player.hands[i]]. *)
Definition surrender (i : nat) : M (bool * Q) :=
  validate FSurrender (
    h <- get_hand i ;;
    if negb (can_surrender rules h) then ret (false, 0%Q) else
    let h' := set_surrendered h in
    put_hand i h' ;;;
    let surrender_amount := (bet h' * (1 # 2))%Q in
    modify (add_bankroll surrender_amount) ;;;
    player_update_stats SURRENDER surrender_amount h' ;;;
    ret (true, surrender_amount)).

(** [Blackjack.place_insurance] on [self.player.hands[i]]. *)
Definition place_insurance (i : nat) : M bool :=
  validate FPlaceInsurance (
    up_ok <- (if negb (insurance_offered rules) then ret false
              else up <- get_dealer_upcard ;; ret (is_ace up)) ;;
    if negb up_ok then ret false else
    h <- get_hand i ;;
    let insurance_amount := (original_bet h * (1 # 2))%Q in
    br <- gets (fun g => bankroll (player g)) ;;
    if Qlt_b br insurance_amount then ret false else
    modify (add_bankroll (- insurance_amount)) ;;;
    put_hand i (set_insurance h insurance_amount) ;;;
    modify (map_stats (fun st => stats_insurance st insurance_amount)) ;;;
    ret true).

(** [Blackjack.handle_insurance_payout] *)
Definition handle_insurance_payout (h : Hand) : M (option Q) :=
  if Qeq_bool (insurance_bet h) 0 then ret None else
  dh <- gets dealer_hand ;;
  bj <- lift (is_blackjack dh) ;;
  if bj then
    let payout := (insurance_bet h * (1 + insurance_payout rules))%Q in
    modify (add_bankroll payout) ;;;
    modify (map_stats stats_insurance_won) ;;;
    ret (Some payout)
  else ret (Some 0%Q).

(** [Blackjack.take_even_money] on [self.player.hands[i]]. *)
Definition take_even_money (i : nat) : M (bool * Q) :=
  validate FTakeEvenMoney (
    h <- get_hand i ;;
    up <- get_dealer_upcard ;;
    ok <- lift (can_take_even_money rules h up) ;;
    if negb ok then ret (false, 0%Q) else
    let h' := set_even_money h in
    put_hand i h' ;;;
    let payout := (bet h' * 2)%Q in
    modify (add_bankroll payout) ;;;
    player_update_stats WIN payout h' ;;;
    ret (true, payout)).

(** The [while True] loop of [play_dealer_hand].  The dealer's hand is a
    fresh [Hand()] with no flag set, so every turn that does not leave the
    loop and does not raise adds a card to a hand worth at most 17: the
    sum of its cards with aces low grows by at least one and the loop ends
    within 18 turns; [fuel] bounds it by that.  The flag returned by
    [add_card] is ignored. *)
Fixpoint dealer_loop (fuel : nat) : M bool :=
  match fuel with
  | 0 => ret true
  | S fuel' =>
      dh <- gets dealer_hand ;;
      vb <- lift (get_value dh) ;;
      let value := fst vb in
      let soft := is_soft dh in
      if 17 <? value then ret true else
      if (value =? 17) && negb soft then ret true else
      card <- draw ;;
      match card with
      | None => ret false
      | Some c =>
          let '(dh', added) := add_card dh c in
          modify (set_dealer dh') ;;;
          _ <- lift added ;;
          dealer_loop fuel'
      end
  end.

(** [Blackjack.play_dealer_hand] *)
Definition play_dealer_hand : M bool :=
  modify (set_state DEALER_TURN) ;;; dealer_loop 32.

(** The loop of [handle_dead_hand] over [self.player.hands]. *)
Fixpoint dead_loop (hs : list Hand) (results : list (GameResult * Q))
    (total : Q) : M (list (GameResult * Q) * Q) :=
  match hs with
  | [] => ret (results, total)
  | h :: hs' =>
      done <- lift (is_done h) ;;
      if negb done then
        modify (add_bankroll (bet h)) ;;;
        player_update_stats PUSH (bet h) h ;;;
        dead_loop hs' (results ++ [(PUSH, bet h)]) total
      else
        dh <- gets dealer_hand ;;
        ra <- lift (resolve_hand rules dh h) ;;
        let '(result, amount) := ra in
        modify (add_bankroll amount) ;;;
        player_update_stats result amount h ;;;
        dead_loop hs' (results ++ [(result, amount)])
          (total + (amount - original_bet h))%Q
  end.

(** The [RoundResult] built at the end of a round: [str(self.dealer_hand)],
    then [[str(hand) for hand in self.player.hands]]. *)
Definition round_result (results : list (GameResult * Q)) (total : Q)
    : M RoundResult :=
  dh <- gets dealer_hand ;;
  lift (hand_str dh) ;;;
  hs <- gets (fun g => hands (player g)) ;;
  lift (all_str hs) ;;;
  ret (mkRoundResult results total None dh hs).

(** [Blackjack.handle_dead_hand] *)
Definition handle_dead_hand : M RoundResult :=
  hs <- gets (fun g => hands (player g)) ;;
  rt <- dead_loop hs [] 0%Q ;;
  modify (set_state COMPLETE) ;;;
  round_result (fst rt) (snd rt).

(** The loop of [finish_round] resolving the player's hands. *)
Fixpoint resolve_loop (hs : list Hand) (results : list (GameResult * Q))
    (total : Q) : M (list (GameResult * Q) * Q) :=
  match hs with
  | [] => ret (results, total)
  | h :: hs' =>
      if took_even_money h then resolve_loop hs' results total else
      dh <- gets dealer_hand ;;
      ra <- lift (resolve_hand rules dh h) ;;
      let '(result, amount) := ra in
      modify (add_bankroll amount) ;;;
      player_update_stats result amount h ;;;
      resolve_loop hs' (results ++ [(result, amount)])
        (total + (amount - original_bet h))%Q
  end.

(** [Blackjack.finish_round] after the dealer's play. *)
Definition resolve_all : M RoundResult :=
  hs <- gets (fun g => hands (player g)) ;;
  rt <- resolve_loop hs [] 0%Q ;;
  modify (set_state COMPLETE) ;;;
  round_result (fst rt) (snd rt).

(** [Blackjack.finish_round] *)
Definition finish_round : M RoundResult :=
  validate FFinishRound (
    hs <- gets (fun g => hands (player g)) ;;
    all_hands_resolved <- lift (all_done hs) ;;
    if negb all_hands_resolved then
      dealer_cards_ok <- play_dealer_hand ;;
      if negb dealer_cards_ok then handle_dead_hand else resolve_all
    else resolve_all).

(** The insurance loop of [play_round]. *)
Fixpoint insurance_loop (hs : list Hand) : M unit :=
  match hs with
  | [] => ret tt
  | h :: hs' =>
      (if Qlt_b 0 (insurance_bet h) then
         _ <- handle_insurance_payout h ;; ret tt
       else ret tt) ;;;
      insurance_loop hs'
  end.

(** [Blackjack.play_round] *)
Definition play_round (bet_amount : Q) : M RoundResult :=
  validate FPlayRound (
    started <- start_round bet_amount ;;
    if negb started then handle_dead_hand else
    dealer_upcard <- get_dealer_upcard ;;
    hs <- gets (fun g => hands (player g)) ;;
    (if insurance_offered rules && is_ace dealer_upcard
        && existsb (fun h => Qlt_b 0 (insurance_bet h)) hs
     then insurance_loop hs else ret tt) ;;;
    dh <- gets dealer_hand ;;
    bj <- lift (is_blackjack dh) ;;
    if bj then finish_round else finish_round).
End Engine.

(** ** Moves ([get_valid_moves], [check_hand_done], [execute_move]) *)

Section Moves.
Variable shuffle : list Card -> list Card.
Variable rules : BlackjackRules.

(** [Blackjack.get_valid_moves] on the hand object [h]; [or] calls
    [hand.is_done()] only in the player's turn. *)
Definition get_valid_moves (h : Hand) : M (list string) :=
  st <- gets round_state ;;
  if negb (round_state_eqb st PLAYER_TURN) then ret [] else
  done <- lift (is_done h) ;;
  if done then ret [] else
  let moves := ["hit"%string; "stand"%string] in
  bj <- lift (is_blackjack h) ;;
  if bj then
    ok <- (if even_money_offered rules then
             up <- get_dealer_upcard ;;
             ret (is_ace up && negb (took_even_money h))
           else ret false) ;;
    if ok then ret ["even_money"%string; "keep_blackjack"%string] else ret []
  else
  let moves := if can_surrender rules h then app moves ["surrender"%string] else moves in
  br <- gets (fun g => bankroll (player g)) ;;
  let moves := if can_double rules h && Qle_b (bet h) br
               then app moves ["double"%string] else moves in
  hs <- gets (fun g => hands (player g)) ;;
  let moves := if can_split rules h && Qle_b (bet h) br
                  && (length hs <? max_splits rules + 1)
               then app moves ["split"%string] else moves in
  ret moves.

(** [Blackjack.check_hand_done] on the hand object [h]. *)
Definition check_hand_done (h : Hand) : M bool :=
  done <- lift (is_done h) ;;
  if done then
    hs <- gets (fun g => hands (player g)) ;;
    all <- lift (all_done hs) ;;
    (if all then modify (set_state DEALER_TURN) else ret tt) ;;;
    ret true
  else ret false.

(** [Blackjack.execute_move(move, hand_index)] for [hand_index >= 0].
    [hand] is the object [self.player.hands[hand_index]]: no move removes a
    hand and [split] inserts after it, so after the move it is still at
    [hand_index], where [check_hand_done] reads it. *)
Definition execute_move (move : string) (hand_index : nat) : M bool :=
  st <- gets round_state ;;
  if negb (round_state_eqb st PLAYER_TURN) then ret false else
  hand <- get_hand hand_index ;;
  done <- lift (is_done hand) ;;
  if done then ret false else
  success <-
    (if String.eqb move "hit" then hit shuffle rules hand_index
     else if String.eqb move "stand" then ret true
     else if String.eqb move "double" then double_down shuffle rules hand_index
     else if String.eqb move "split" then split shuffle rules hand_index
     else if String.eqb move "surrender" then
       r <- surrender rules hand_index ;; ret (fst r)
     else if String.eqb move "even_money" then
       r <- take_even_money rules hand_index ;; ret (fst r)
     else ret false) ;;
  if success then
    hand' <- get_hand hand_index ;;
    _ <- check_hand_done hand' ;;
    ret success
  else ret success.
End Moves.

(** [WagerStats.total_wagered] *)
Definition total_wagered (w : WagerStats) : Q :=
  (original_wagers w + additional_wagers w + insurance_wagers w)%Q.


(** ** The basic strategy of [basic_strategy.py] *)

Module Action.
(** [class Action(Enum)] *)
Inductive t :=
  HIT | STAND | SPLIT | SURRENDER | DOUBLE
| DOUBLE_OR_HIT | DOUBLE_OR_STAND | SPLIT_OR_HIT | SURRENDER_OR_HIT.
End Action.

Section Strategy.
Local Open Scope string_scope.

(** [Action(value)]: [None] where Python raises [ValueError]. *)
Definition action_of_value (s : string) : option Action.t :=
  if String.eqb s "H" then Some Action.HIT
  else if String.eqb s "S" then Some Action.STAND
  else if String.eqb s "P" then Some Action.SPLIT
  else if String.eqb s "R" then Some Action.SURRENDER
  else if String.eqb s "D" then Some Action.DOUBLE
  else if String.eqb s "Dh" then Some Action.DOUBLE_OR_HIT
  else if String.eqb s "Ds" then Some Action.DOUBLE_OR_STAND
  else if String.eqb s "Ph" then Some Action.SPLIT_OR_HIT
  else if String.eqb s "Rh" then Some Action.SURRENDER_OR_HIT
  else None.

(** [d[k]] on a dict held as its list of items: [None] where Python raises
    [KeyError]. *)
Fixpoint lookup {K V} (eqb : K -> K -> bool) (k : K) (d : list (K * V)) : option V :=
  match d with
  | [] => None
  | (k', v) :: d' => if eqb k k' then Some v else lookup eqb k d'
  end.

(** The tables built by [BasicStrategy.__init__]. *)
Definition hard_totals : list (nat * list (nat * string)) := [
  (21,
    [(2, "S"); (3, "S"); (4, "S"); (5, "S"); (6, "S"); (7, "S"); (8, "S"); (9, "S"); (10, "S"); (1, "S")]);
  (20,
    [(2, "S"); (3, "S"); (4, "S"); (5, "S"); (6, "S"); (7, "S"); (8, "S"); (9, "S"); (10, "S"); (1, "S")]);
  (19,
    [(2, "S"); (3, "S"); (4, "S"); (5, "S"); (6, "S"); (7, "S"); (8, "S"); (9, "S"); (10, "S"); (1, "S")]);
  (18,
    [(2, "S"); (3, "S"); (4, "S"); (5, "S"); (6, "S"); (7, "S"); (8, "S"); (9, "S"); (10, "S"); (1, "S")]);
  (17,
    [(2, "S"); (3, "S"); (4, "S"); (5, "S"); (6, "S"); (7, "S"); (8, "S"); (9, "S"); (10, "S"); (1, "S")]);
  (16,
    [(2, "S"); (3, "S"); (4, "S"); (5, "S"); (6, "S"); (7, "H"); (8, "H"); (9, "Rh"); (10, "Rh"); (1, "Rh")]);
  (15,
    [(2, "S"); (3, "S"); (4, "S"); (5, "S"); (6, "S"); (7, "H"); (8, "H"); (9, "H"); (10, "Rh"); (1, "H")]);
  (14,
    [(2, "S"); (3, "S"); (4, "S"); (5, "S"); (6, "S"); (7, "H"); (8, "H"); (9, "H"); (10, "H"); (1, "H")]);
  (13,
    [(2, "S"); (3, "S"); (4, "S"); (5, "S"); (6, "S"); (7, "H"); (8, "H"); (9, "H"); (10, "H"); (1, "H")]);
  (12,
    [(2, "H"); (3, "H"); (4, "S"); (5, "S"); (6, "S"); (7, "H"); (8, "H"); (9, "H"); (10, "H"); (1, "H")]);
  (11,
    [(2, "Dh"); (3, "Dh"); (4, "Dh"); (5, "Dh"); (6, "Dh"); (7, "Dh"); (8, "Dh"); (9, "Dh"); (10, "Dh"); (1, "H")]);
  (10,
    [(2, "Dh"); (3, "Dh"); (4, "Dh"); (5, "Dh"); (6, "Dh"); (7, "Dh"); (8, "Dh"); (9, "Dh"); (10, "H"); (1, "H")]);
  (9,
    [(2, "H"); (3, "Dh"); (4, "Dh"); (5, "Dh"); (6, "Dh"); (7, "H"); (8, "H"); (9, "H"); (10, "H"); (1, "H")]);
  (8,
    [(2, "H"); (3, "H"); (4, "H"); (5, "H"); (6, "H"); (7, "H"); (8, "H"); (9, "H"); (10, "H"); (1, "H")]);
  (7,
    [(2, "H"); (3, "H"); (4, "H"); (5, "H"); (6, "H"); (7, "H"); (8, "H"); (9, "H"); (10, "H"); (1, "H")]);
  (6,
    [(2, "H"); (3, "H"); (4, "H"); (5, "H"); (6, "H"); (7, "H"); (8, "H"); (9, "H"); (10, "H"); (1, "H")]);
  (5,
    [(2, "H"); (3, "H"); (4, "H"); (5, "H"); (6, "H"); (7, "H"); (8, "H"); (9, "H"); (10, "H"); (1, "H")]);
  (4,
    [(2, "H"); (3, "H"); (4, "H"); (5, "H"); (6, "H"); (7, "H"); (8, "H"); (9, "H"); (10, "H"); (1, "H")])].
Definition soft_totals : list (nat * list (nat * string)) := [
  (21,
    [(2, "S"); (3, "S"); (4, "S"); (5, "S"); (6, "S"); (7, "S"); (8, "S"); (9, "S"); (10, "S"); (1, "S")]);
  (20,
    [(2, "S"); (3, "S"); (4, "S"); (5, "S"); (6, "S"); (7, "S"); (8, "S"); (9, "S"); (10, "S"); (1, "S")]);
  (19,
    [(2, "S"); (3, "S"); (4, "S"); (5, "S"); (6, "Ds"); (7, "S"); (8, "S"); (9, "S"); (10, "S"); (1, "S")]);
  (18,
    [(2, "Ds"); (3, "Ds"); (4, "Ds"); (5, "Ds"); (6, "Ds"); (7, "S"); (8, "S"); (9, "H"); (10, "H"); (1, "H")]);
  (17,
    [(2, "H"); (3, "Dh"); (4, "Dh"); (5, "Dh"); (6, "Dh"); (7, "H"); (8, "H"); (9, "H"); (10, "H"); (1, "H")]);
  (16,
    [(2, "H"); (3, "H"); (4, "Dh"); (5, "Dh"); (6, "Dh"); (7, "H"); (8, "H"); (9, "H"); (10, "H"); (1, "H")]);
  (15,
    [(2, "H"); (3, "H"); (4, "Dh"); (5, "Dh"); (6, "Dh"); (7, "H"); (8, "H"); (9, "H"); (10, "H"); (1, "H")]);
  (14,
    [(2, "H"); (3, "H"); (4, "H"); (5, "Dh"); (6, "Dh"); (7, "H"); (8, "H"); (9, "H"); (10, "H"); (1, "H")]);
  (13,
    [(2, "H"); (3, "H"); (4, "H"); (5, "Dh"); (6, "Dh"); (7, "H"); (8, "H"); (9, "H"); (10, "H"); (1, "H")])].
Definition pairs : list (string * list (nat * string)) := [
  ("A",
    [(2, "P"); (3, "P"); (4, "P"); (5, "P"); (6, "P"); (7, "P"); (8, "P"); (9, "P"); (10, "P"); (1, "P")]);
  ("T",
    [(2, "S"); (3, "S"); (4, "S"); (5, "S"); (6, "S"); (7, "S"); (8, "S"); (9, "S"); (10, "S"); (1, "S")]);
  ("9",
    [(2, "P"); (3, "P"); (4, "P"); (5, "P"); (6, "P"); (7, "S"); (8, "P"); (9, "P"); (10, "S"); (1, "S")]);
  ("8",
    [(2, "P"); (3, "P"); (4, "P"); (5, "P"); (6, "P"); (7, "P"); (8, "P"); (9, "P"); (10, "P"); (1, "P")]);
  ("7",
    [(2, "P"); (3, "P"); (4, "P"); (5, "P"); (6, "P"); (7, "P"); (8, "H"); (9, "H"); (10, "H"); (1, "H")]);
  ("6",
    [(2, "Ph"); (3, "P"); (4, "P"); (5, "P"); (6, "P"); (7, "H"); (8, "H"); (9, "H"); (10, "H"); (1, "H")]);
  ("5",
    [(2, "Dh"); (3, "Dh"); (4, "Dh"); (5, "Dh"); (6, "Dh"); (7, "Dh"); (8, "Dh"); (9, "Dh"); (10, "H"); (1, "H")]);
  ("4",
    [(2, "H"); (3, "H"); (4, "H"); (5, "Ph"); (6, "Ph"); (7, "H"); (8, "H"); (9, "H"); (10, "H"); (1, "H")]);
  ("3",
    [(2, "Ph"); (3, "Ph"); (4, "P"); (5, "P"); (6, "P"); (7, "P"); (8, "H"); (9, "H"); (10, "H"); (1, "H")]);
  ("2",
    [(2, "Ph"); (3, "Ph"); (4, "P"); (5, "P"); (6, "P"); (7, "P"); (8, "H"); (9, "H"); (10, "H"); (1, "H")])].

(** [int(s)] on a string of decimal digits, the only strings the simulator
    passes; [None] ([ValueError]) on any other string.  Python's [int] also
    accepts a sign, surrounding blanks and underscores, which no caller
    produces. *)
Fixpoint digits_value (s : string) (acc : nat) : option nat :=
  match s with
  | EmptyString => Some acc
  | String a s' =>
      let n := nat_of_ascii a in
      if Nat.leb 48 n && Nat.leb n 57 then digits_value s' (acc * 10 + (n - 48))
      else None
  end.

Definition py_int (s : string) : option nat :=
  match s with
  | EmptyString => None
  | _ => digits_value s 0
  end.

Definition ten_labels : list string := ["T"; "J"; "Q"; "K"].

(** [c in l] on a list of strings. *)
Definition str_in (c : string) (l : list string) : bool := existsb (String.eqb c) l.

(** [sum(10 if c in ['T', 'J', 'Q', 'K'] else int(c) for c in hand if c != 'A')] *)
Fixpoint non_ace_sum (hand : list string) : option nat :=
  match hand with
  | [] => Some 0
  | c :: hand' =>
      if String.eqb c "A" then non_ace_sum hand' else
      match (if str_in c ten_labels then Some 10 else py_int c), non_ace_sum hand' with
      | Some v, Some s => Some (v + s)
      | _, _ => None
      end
  end.

(** [sum(1 for c in hand if c == 'A')] *)
Definition count_aces (hand : list string) : nat :=
  length (filter (fun c => String.eqb c "A") hand).

(** [Action(table[key][dealer_value])] for the row [table[key]]. *)
Definition table_action (row : option (list (nat * string))) (dealer_value : nat)
    : option Action.t :=
  match row with
  | None => None
  | Some r =>
      match lookup Nat.eqb dealer_value r with
      | None => None
      | Some code => action_of_value code
      end
  end.

(** [len(hand) == 2 and hand[0] == hand[1]] *)
Definition is_pair (hand : list string) : bool :=
  match hand with
  | [c0; c1] => String.eqb c0 c1
  | _ => false
  end.

(** The hard-total lookup closing [get_action]. *)
Definition hard_action (hand : list string) (dealer_value : nat) : option Action.t :=
  match non_ace_sum hand with
  | None => None
  | Some non_aces =>
      let total := non_aces + count_aces hand in
      table_action (lookup Nat.eqb total hard_totals) dealer_value
  end.

(** [BasicStrategy.get_action]: [None] where it raises ([KeyError] or
    [ValueError]). *)
Definition get_action (player_hand : list string) (dealer_upcard : string)
    : option Action.t :=
  let dealer_value :=
    if String.eqb dealer_upcard "A" then Some 1
    else if str_in dealer_upcard ten_labels then Some 10
    else py_int dealer_upcard in
  match dealer_value with
  | None => None
  | Some dv =>
      if is_pair player_hand then
        let c0 := hd "" player_hand in
        let card_value := if String.eqb c0 "A" then "A"
                          else if str_in c0 ten_labels then "T" else c0 in
        table_action (lookup String.eqb card_value pairs) dv
      else if str_in "A" player_hand then
        match non_ace_sum player_hand with
        | None => None
        | Some s =>
            let soft_total := s + 11 + (count_aces player_hand - 1) in
            if Nat.leb soft_total 21
               && match lookup Nat.eqb soft_total soft_totals with
                  | Some _ => true | None => false end
            then table_action (lookup Nat.eqb soft_total soft_totals) dv
            else hard_action player_hand dv
        end
      else hard_action player_hand dv
  end.

(** The card labels of [BlackjackSimulator.get_strategy_move]: a ten-valued
    rank becomes ['T'], any other rank is passed as it is. *)
Definition strategy_label (r : Rank) : string :=
  match r with
  | R10 | J | Q_ | K => "T"
  | A => "A"
  | R2 => "2" | R3 => "3" | R4 => "4" | R5 => "5" | R6 => "6"
  | R7 => "7" | R8 => "8" | R9 => "9"
  end.

Definition strategy_hand (h : Hand) : list string :=
  map (fun c => strategy_label (rank c)) (cards h).
End Strategy.

(** [BlackjackSimulator._convert_action_to_move] *)
Definition convert_action_to_move (rules : BlackjackRules) (action : Action.t)
    (h : Hand) : M string :=
  valid_moves <- get_valid_moves rules h ;;
  let listed m := str_in m valid_moves in
  ret (match action with
       | Action.STAND => "stand"
       | Action.HIT => "hit"
       | Action.SPLIT => if listed "split"%string then "split" else "hit"
       | Action.DOUBLE_OR_HIT => if listed "double"%string then "double" else "hit"
       | Action.DOUBLE_OR_STAND => if listed "double"%string then "double" else "stand"
       | Action.SPLIT_OR_HIT => if listed "split"%string then "split" else "hit"
       | Action.SURRENDER_OR_HIT => if listed "surrender"%string then "surrender" else "hit"
       | Action.SURRENDER => if listed "surrender"%string then "surrender" else "hit"
       | Action.DOUBLE => if listed "double"%string then "double" else "hit"
       end)%string.

(** [BlackjackSimulator.get_strategy_move]: [None] where [get_action]
    raises. *)
Definition get_strategy_move (rules : BlackjackRules) (h : Hand) (dealer_upcard : Card)
    : M (option string) :=
  match get_action (strategy_hand h) (strategy_label (rank dealer_upcard)) with
  | None => ret None
  | Some action => m <- convert_action_to_move rules action h ;; ret (Some m)
  end.

(** Decidable equality of cards, for counting them. *)
Definition card_eq_dec (c d : Card) : {c = d} + {c <> d}.
Proof. decide equality; [destruct rank0, rank1 | destruct suit0, suit1];
  first [left; reflexivity | right; discriminate]. Defined.

(** ** Definitions following the spec's words *)

(** The spec's low total: every card at its rank, face cards as 10, an
    ace as 1. *)
Definition low_total (cs : list Card) : nat :=
  fold_right (fun c acc => (if is_ace c then 1 else card_get_value c) + acc) 0 cs.

(** The spec's natural blackjack: two cards, 21, not from a split and no
    even money taken. *)
Definition spec_natural (h : Hand) : bool :=
  (length (cards h) =? 2) && (hand_value h =? 21)
  && negb (is_split h) && negb (took_even_money h).

(** The spec's payout precedence of [resolve_hand] for a hand that has not
    been surrendered. *)
Definition resolve_spec (rules : BlackjackRules) (dh h : Hand) : GameResult * Q :=
  let pv := hand_value h in
  let dv := hand_value dh in
  let pnat := spec_natural h in
  let dnat := spec_natural dh in
  if 21 <? pv then (LOSE, 0%Q)
  else if 21 <? dv then (WIN, bet h * 2)%Q
  else if pnat && negb dnat then (BLACKJACK, bet h * (1 + blackjack_payout rules))%Q
  else if dnat && negb pnat then (LOSE, 0%Q)
  else if pnat && dnat then (PUSH, bet h)
  else if dv <? pv then (WIN, bet h * 2)%Q
  else if pv =? dv then (PUSH, bet h)
  else (LOSE, 0%Q).

Definition sumQ (l : list Q) : Q := fold_right Qplus 0%Q l.

(** A result raised by the checks of [validate_game_state] on the game [g]
    itself, before any mutation. *)
Definition raises_game_error {X} (r : Res X) (g : Game) : Prop :=
  exists e, r = Raise e g /\ (e = ErrNoCards \/ e = ErrNoFunds).

(** The state checks of [validate_game_state] that let a non-[start_round]
    body run. *)
Definition validated (g : Game) : Prop :=
  (deck_cards (deck g) <> [] \/ discard_pile (deck g) <> [])
  /\ Qlt_b 0 (bankroll (player g)) = true
  /\ round_state g <> NOT_STARTED /\ round_state g <> COMPLETE.

(** What the spec asks of one [draw] on a shoe of [decks * 52] cards. *)
Definition draw_respects_shoe (shuffle : list Card -> list Card)
    (rules : BlackjackRules) (d : Deck) : Prop :=
  match deck_draw shuffle rules d with
  | Drawn c d' =>
      length (deck_cards d') + length (discard_pile d') = number_of_decks rules * 52
      /\ (let '(undealt, discard) :=
            match deck_cards d with
            | [] => (shuffle (full_shoe (number_of_decks rules)), [])
            | _ => (deck_cards d, discard_pile d)
            end in
          deck_cards d' ++ [c] = undealt /\ discard_pile d' = discard ++ [c])
  | Exhausted d' => d' = d
  | DrawIndexError _ => False
  end.

(** ** Concrete games *)

(** [random.shuffle] drawing the reversed order, one of its outcomes. *)
Definition shuffle_rev (l : list Card) : list Card := rev l.

(** The default rules with a single deck. *)
Definition one_deck_rules : BlackjackRules :=
  mkRules (4 # 5) 3 false true true true true true 10%Q 500%Q 1 (3 # 2) 2%Q.

Definition hand_of (cs : list Card) (b : Q) : Hand :=
  mkHand cs b false false false b false 0%Q false.

(** A single-deck shoe with every card dealt: [draw] can no longer deal. *)
Definition spent_deck : Deck := mkDeck [] (full_shoe 1).

(** Mid-round, the player standing on 12 and the dealer on 11 with the
    shoe spent. *)
Definition starved_game : Game :=
  mkGame spent_deck
    (mkPlayer 990 [hand_of [mkCard Spades R10; mkCard Spades R2] 10] zero_stats)
    (hand_of [mkCard Hearts R5; mkCard Hearts R6] 0) PLAYER_TURN.

(** Mid-round, a pair of eights with a bet of 10 and the shoe spent. *)
Definition spent_pair_game : Game :=
  mkGame spent_deck
    (mkPlayer 990 [hand_of [mkCard Spades R8; mkCard Clubs R8] 10] zero_stats)
    (hand_of [mkCard Hearts R5; mkCard Hearts R6] 0) PLAYER_TURN.

(** Mid-round, 11 with a bet of 10 against a dealer 4, the shoe spent. *)
Definition spent_eleven_game : Game :=
  mkGame spent_deck
    (mkPlayer 990 [hand_of [mkCard Spades R5; mkCard Spades R6] 10] zero_stats)
    (hand_of [mkCard Hearts R4; mkCard Hearts R9] 0) PLAYER_TURN.

(** Mid-round, 11 against a dealer 4, the bankroll exactly the hand's bet. *)
Definition all_in_game : Game :=
  mkGame (mkDeck (full_shoe 1) [])
    (mkPlayer 10 [hand_of [mkCard Spades R5; mkCard Spades R6] 10] zero_stats)
    (hand_of [mkCard Hearts R4; mkCard Hearts R9] 0) PLAYER_TURN.

(** [all_in_game] after [double_down] on its hand. *)
Definition all_in_doubled : Game :=
  match double_down shuffle_rev one_deck_rules 0 all_in_game with
  | Raise _ g => g
  | Ret _ g => g
  end.

(** Mid-round, 16 against a dealer 17, with a bet of 10. *)
Definition sixteen_game : Game :=
  mkGame (mkDeck (full_shoe 1) [])
    (mkPlayer 90 [hand_of [mkCard Spades R10; mkCard Spades R6] 10] zero_stats)
    (hand_of [mkCard Hearts R10; mkCard Hearts R7] 0) PLAYER_TURN.

(** A new [Blackjack] with 1000 in the bankroll and the default rules. *)
Definition fresh_game : Game := new_game shuffle_rev default_rules 1000.

(** A new [Blackjack] with 1000 in the bankroll and a single deck. *)
Definition one_deck_game : Game := new_game shuffle_rev one_deck_rules 1000.

(** [try: m except Exception: pass] in a caller. *)
Definition attempt {X} (m : M X) : M unit :=
  fun g => match m g with
           | Ret _ g' | Raise _ g' => Ret tt g'
           end.

(** [for _ in range(n): m] *)
Fixpoint repeat_m (n : nat) (m : M unit) : M unit :=
  match n with
  | 0 => ret tt
  | S n' => m ;;; repeat_m n' m
  end.

(** [one_deck_game] after thirteen attempts at [start_round(10)], each of
    them caught: every attempt deals four cards, so the shoe is spent. *)
Definition exhausted_game : Game :=
  match repeat_m 13 (attempt (start_round shuffle_rev one_deck_rules 10)) one_deck_game with
  | Ret _ g | Raise _ g => g
  end.

(** Mid-round, 19 against a dealer ace, with a bet of 10. *)
Definition insurance_game : Game :=
  mkGame (mkDeck (full_shoe 1) [])
    (mkPlayer 90 [hand_of [mkCard Spades R10; mkCard Spades R9] 10] zero_stats)
    (hand_of [mkCard Hearts A; mkCard Hearts R7] 0) PLAYER_TURN.

(** Mid-round, a hand split from aces holding its ace and a 5. *)
Definition split_aces_game : Game :=
  mkGame (mkDeck (full_shoe 1) [])
    (mkPlayer 80 [mkHand [mkCard Spades A; mkCard Hearts R5] 10 true false false 10 true 0 false;
                  mkHand [mkCard Clubs A; mkCard Hearts R9] 10 true false false 10 true 0 false]
       zero_stats)
    (hand_of [mkCard Hearts R10; mkCard Hearts R7] 0) PLAYER_TURN.

(** Mid-round, a three-card 15 with a bet of 10 and a full shoe (whose
    last card is the ace of diamonds). *)
Definition three_card_game : Game :=
  mkGame (mkDeck (full_shoe 1) [])
    (mkPlayer 90 [hand_of [mkCard Spades R10; mkCard Spades R2; mkCard Spades R3] 10]
       zero_stats)
    (hand_of [mkCard Hearts R10; mkCard Hearts R7] 0) PLAYER_TURN.

(** Mid-round, a three-card 21 with a bet of 10 and a full shoe. *)
Definition three_card_21_game : Game :=
  mkGame (mkDeck (full_shoe 1) [])
    (mkPlayer 90 [hand_of [mkCard Spades R10; mkCard Spades R2; mkCard Spades R9] 10]
       zero_stats)
    (hand_of [mkCard Hearts R10; mkCard Hearts R7] 0) PLAYER_TURN.

(** The dealer's turn, the dealer holding a hard 16 in three cards. *)
Definition dealer_three_card_game : Game :=
  mkGame (mkDeck (full_shoe 1) [])
    (mkPlayer 90 [hand_of [mkCard Spades R10; mkCard Spades R7; mkCard Spades R2] 10]
       zero_stats)
    (hand_of [mkCard Hearts R10; mkCard Hearts R2; mkCard Hearts R4] 0) DEALER_TURN.

(** ** Predicates and a tactic for the further properties *)


(** The labels [get_strategy_move] gives the cards of a hand. *)
Definition strategy_labels (cs : list Card) : list string :=
  map (fun c => strategy_label (rank c)) cs.

(** Every dealer value 1..10 has an entry in the table row. *)
Definition row_ok (row : list (nat * string)) : bool :=
  forallb (fun dv => match table_action (Some row) dv with Some _ => true | None => false end)
    (seq 1 10).

(** Runs a monadic computation in hypothesis [H], splitting on the innermost
    scrutinee at each step. *)
Ltac exec_steps H :=
  repeat (try unfold draw, set_deck, set_player, set_dealer, set_hands, set_state in H;
    cbn -[deck_draw place_bet] in H;
    match type of H with
    | context [match ?x with _ => _ end] =>
        lazymatch x with
        | context [match _ with _ => _ end] => fail
        | _ => let E := fresh "E" in destruct x eqn:E
        end
    end; try discriminate).


(** Unfolds the monad and the accessors in the goal. *)
Ltac run := cbv beta iota zeta delta [bind gets ret modify raise lift get_hand put_hand
  get_dealer_upcard player_update_stats].

(** Evaluates the concrete computation [e] and settles an [exists g, e = r g /\ ...] goal. *)
Ltac settle_concrete e :=
  let r := fresh "r" in let E := fresh "E" in
  remember e as r eqn:E; vm_compute in E; subst r;
  eexists; split; [reflexivity|];
  repeat split; vm_compute; reflexivity.

(** Proves [validated] of a concrete game. *)
Ltac solve_validated :=
  unfold validated; split;
  [first [left; vm_compute; discriminate | right; vm_compute; discriminate]
  | split; [vm_compute; reflexivity | split; discriminate]].


(** ** Lemmas on hands and the shoe *)

Lemma low_total_split (cs : list Card) :
  non_ace_value cs + ace_count cs = low_total cs.
Proof.
  induction cs as [|c cs IH]; [reflexivity|].
  unfold non_ace_value, ace_count in *. simpl.
  destruct (is_ace c); simpl; lia.
Qed.

Lemma ace_count_pos (cs : list Card) :
  (0 <? ace_count cs) = existsb is_ace cs.
Proof.
  induction cs as [|c cs IH]; [reflexivity|].
  unfold ace_count in *. simpl.
  destruct (is_ace c); simpl; [reflexivity | exact IH].
Qed.

Lemma get_value_rec_two (h : Hand) (Hl : length (cards h) = 2) :
  forall n, get_value_rec n h = None /\ is_blackjack_rec n h = None.
Proof.
  induction n as [|n [IHv IHb]]; [split; reflexivity|].
  cbn [get_value_rec is_blackjack_rec]. rewrite IHb, Hl, IHv. split; reflexivity.
Qed.

Lemma get_value_rec_other (h : Hand) (Hl : length (cards h) <> 2) (n : nat) :
  is_blackjack_rec (S n) h = Some false
  /\ get_value_rec (S (S n)) h = Some (hand_value h, false).
Proof.
  assert (Hb : forall m, is_blackjack_rec (S m) h = Some false).
  { intros m. cbn [is_blackjack_rec].
    destruct (length (cards h) =? 2) eqn:E; [apply Nat.eqb_eq in E; contradiction|].
    reflexivity. }
  split; [apply Hb|]. cbn [get_value_rec]. rewrite Hb. reflexivity.
Qed.

Lemma get_value_two (h : Hand) : length (cards h) = 2 -> get_value h = None.
Proof. intros Hl. exact (proj1 (get_value_rec_two h Hl recursion_limit)). Qed.

Lemma is_blackjack_two (h : Hand) : length (cards h) = 2 -> is_blackjack h = None.
Proof. intros Hl. exact (proj2 (get_value_rec_two h Hl recursion_limit)). Qed.

Lemma get_value_other (h : Hand) :
  length (cards h) <> 2 -> get_value h = Some (hand_value h, false).
Proof.
  intros Hl. unfold get_value. change recursion_limit with (S (S 998)).
  exact (proj2 (get_value_rec_other h Hl 998)).
Qed.

Lemma is_blackjack_other (h : Hand) :
  length (cards h) <> 2 -> is_blackjack h = Some false.
Proof.
  intros Hl. unfold is_blackjack. change recursion_limit with (S 999).
  exact (proj1 (get_value_rec_other h Hl 999)).
Qed.

Lemma get_value_some_length (h : Hand) (vb : nat * bool) :
  get_value h = Some vb -> length (cards h) <> 2.
Proof. intros H Hl. rewrite (get_value_two h Hl) in H. discriminate. Qed.

Lemma is_busted_two (h : Hand) : length (cards h) = 2 -> is_busted h = None.
Proof. intros Hl. unfold is_busted. rewrite (get_value_two h Hl). reflexivity. Qed.

Lemma is_busted_other (h : Hand) :
  length (cards h) <> 2 -> is_busted h = Some (21 <? hand_value h).
Proof. intros Hl. unfold is_busted. rewrite (get_value_other h Hl). reflexivity. Qed.

Lemma is_done_two (h : Hand) : length (cards h) = 2 -> is_done h = None.
Proof. intros Hl. unfold is_done. rewrite (is_busted_two h Hl). reflexivity. Qed.

Lemma is_done_other (h : Hand) :
  length (cards h) <> 2 ->
  is_done h = Some ((21 <? hand_value h) || is_surrendered h || took_even_money h
                    || (is_doubled h && (2 <? length (cards h)))
                    || (split_from_aces h && (1 <? length (cards h)))).
Proof.
  intros Hl. unfold is_done. rewrite (is_busted_other h Hl), (is_blackjack_other h Hl).
  destruct (21 <? hand_value h); reflexivity.
Qed.

Lemma is_done_some_length (h : Hand) (b : bool) :
  is_done h = Some b -> length (cards h) <> 2.
Proof. intros H Hl. rewrite (is_done_two h Hl) in H. discriminate. Qed.

Lemma hand_str_two (h : Hand) : length (cards h) = 2 -> hand_str h = None.
Proof. intros Hl. unfold hand_str. rewrite (get_value_two h Hl). reflexivity. Qed.

Lemma hand_str_other (h : Hand) : length (cards h) <> 2 -> hand_str h = Some tt.
Proof.
  intros Hl. unfold hand_str.
  rewrite (get_value_other h Hl), (is_busted_other h Hl), (is_done_other h Hl).
  destruct (is_surrendered h), (21 <? hand_value h), (took_even_money h); reflexivity.
Qed.

Lemma length_snoc (cs : list Card) (c : Card) : length (cs ++ [c]) = S (length cs).
Proof. rewrite length_app. simpl. lia. Qed.

Lemma add_card_two (h : Hand) (c : Card) : length (cards h) = 2 -> add_card h c = (h, None).
Proof. intros Hl. unfold add_card. rewrite (is_done_two h Hl). reflexivity. Qed.

Lemma add_card_done (h : Hand) (c : Card) :
  is_done h = Some true -> add_card h c = (h, Some false).
Proof. intros Hd. unfold add_card. rewrite Hd. reflexivity. Qed.

Lemma add_card_appends (h : Hand) (c : Card) :
  is_done h = Some false ->
  add_card h c = (set_cards h (cards h ++ [c]),
                  if length (cards h) =? 1 then None else Some true).
Proof.
  intros Hd. unfold add_card. rewrite Hd.
  destruct (length (cards h) =? 1) eqn:E.
  - apply Nat.eqb_eq in E.
    rewrite (get_value_two (set_cards h (cards h ++ [c]))); [reflexivity|].
    cbn [set_cards cards]. rewrite length_snoc. lia.
  - apply Nat.eqb_neq in E.
    assert (Hl : length (cards (set_cards h (cards h ++ [c]))) <> 2)
      by (cbn [set_cards cards]; rewrite length_snoc; lia).
    rewrite (get_value_other _ Hl), (hand_str_other _ Hl). reflexivity.
Qed.

Lemma add_card_true (h h' : Hand) (c : Card) :
  add_card h c = (h', Some true) ->
  is_done h = Some false /\ h' = set_cards h (cards h ++ [c])
  /\ length (cards h) <> 1 /\ length (cards h) <> 2.
Proof.
  intros H. destruct (is_done h) as [[|]|] eqn:Hd.
  - rewrite (add_card_done h c Hd) in H. inversion H.
  - rewrite (add_card_appends h c Hd) in H.
    destruct (length (cards h) =? 1) eqn:E; inversion H; subst.
    apply Nat.eqb_neq in E. refine (conj eq_refl (conj eq_refl (conj E _))).
    exact (is_done_some_length h false Hd).
  - unfold add_card in H. rewrite Hd in H. discriminate.
Qed.

(** A hand of one card with no flag set is not done. *)
Lemma one_card_not_done (h : Hand) (c : Card) :
  cards h = [c] -> is_surrendered h = false -> took_even_money h = false ->
  is_done h = Some false.
Proof.
  intros Hc Hs He. rewrite is_done_other by (rewrite Hc; discriminate).
  rewrite Hc, Hs, He. unfold hand_value, non_ace_value, ace_count. rewrite Hc.
  destruct (is_doubled h), (split_from_aces h);
  destruct c as [s r]; destruct r; reflexivity.
Qed.

Lemma all_done_true_in (hs : list Hand) (h : Hand) :
  all_done hs = Some true -> In h hs -> is_done h = Some true.
Proof.
  induction hs as [|h' hs IH]; [intros _ []|].
  cbn [all_done]. intros Hall [<-|Hin].
  - destruct (is_done h') as [[|]|]; congruence.
  - destruct (is_done h') as [[|]|]; try discriminate. exact (IH Hall Hin).
Qed.

Lemma all_done_head_two (h : Hand) (hs : list Hand) :
  length (cards h) = 2 -> all_done (h :: hs) = None.
Proof. intros Hl. cbn [all_done]. rewrite (is_done_two h Hl). reflexivity. Qed.
Lemma pop_last_app {X} (l : list X) (x : X) : pop_last (l ++ [x]) = Some (l, x).
Proof.
  unfold pop_last. rewrite rev_app_distr. simpl. rewrite rev_involutive. reflexivity.
Qed.

Lemma pop_last_some {X} (l rest : list X) (x : X) :
  pop_last l = Some (rest, x) -> l = rest ++ [x].
Proof.
  unfold pop_last. destruct (rev l) as [|y r] eqn:E; [discriminate|].
  intros H; inversion H; subst.
  rewrite <- (rev_involutive l), E. reflexivity.
Qed.

Lemma pop_last_nonempty {X} (l : list X) :
  l <> [] -> exists rest x, pop_last l = Some (rest, x).
Proof.
  intros Hne. destruct (exists_last Hne) as [rest [x ->]].
  exists rest, x. apply pop_last_app.
Qed.

Lemma concat_repeat_length {X} (l : list X) (n : nat) :
  length (concat (repeat l n)) = n * length l.
Proof.
  induction n as [|n IH]; [reflexivity|].
  cbn [repeat]. rewrite concat_cons, length_app, IH. lia.
Qed.

Lemma full_shoe_length (n : nat) : length (full_shoe n) = n * 52.
Proof. unfold full_shoe. rewrite concat_repeat_length. reflexivity. Qed.

Lemma Qlt_b_self_scaled (k : nat) (x : Q) :
  Qlt_b (inject_Z (Z.of_nat k)) (inject_Z (Z.of_nat k) * x)%Q = true -> 0 < k.
Proof.
  destruct k as [|k]; [|intros; lia].
  unfold Qlt_b. simpl. unfold Qle_bool. simpl. discriminate.
Qed.

(** ** The shoe *)

(** C2: a draw against an empty undealt sequence, on a shoe holding its
    [decks * 52] cards, reshuffles (discard cleared, the full shoe rebuilt
    and shuffled, its last card dealt) exactly when the discard size is
    below [total * (1 - penetration)] with [total = decks * 52], and
    otherwise returns the exhausted result leaving the shoe as it was. *)
Theorem draw_empty_reshuffle_or_exhausted
    (shuffle : list Card -> list Card) (rules : BlackjackRules) (d : Deck)
    (Hshuffle : forall l, length (shuffle l) = length l)
    (Hempty : deck_cards d = [])
    (Hinv : length (discard_pile d) = number_of_decks rules * 52) :
  if Qlt_b (inject_Z (Z.of_nat (length (discard_pile d))))
       (inject_Z (Z.of_nat (number_of_decks rules * 52)) * (1 - deck_penetration rules))%Q
  then exists rest c,
      shuffle (full_shoe (number_of_decks rules)) = rest ++ [c]
      /\ deck_draw shuffle rules d = Drawn c (mkDeck rest [c])
  else deck_draw shuffle rules d = Exhausted d.
Proof.
  unfold deck_draw. rewrite Hempty. simpl length. rewrite Nat.add_0_l, Hinv.
  destruct (Qlt_b _ _) eqn:Hlt; [|reflexivity].
  apply Qlt_b_self_scaled in Hlt.
  unfold deck_pop, deck_reset. simpl deck_cards.
  destruct (pop_last_nonempty (shuffle (full_shoe (number_of_decks rules))))
    as [rest [c Hp]].
  { intros E. apply (f_equal (@length Card)) in E.
    rewrite Hshuffle, full_shoe_length in E. simpl in E. lia. }
  exists rest, c. split.
  - apply pop_last_some. exact Hp.
  - rewrite Hp. reflexivity.
Qed.

(** C9: on a shoe with [len(undealt) + len(discard) = decks * 52], every
    call to [draw] keeps that sum; a successful draw, reshuffling or not,
    takes the last card of the undealt sequence it draws from (the current
    one, or the freshly shuffled full shoe when the current one is empty)
    and appends it to the discard sequence (the current one, or the
    cleared one after a reshuffle); a draw that deals no card leaves the
    shoe unchanged, and no draw raises. *)
Theorem draw_keeps_shoe_size
    (shuffle : list Card -> list Card) (rules : BlackjackRules) (d : Deck)
    (Hshuffle : forall l, length (shuffle l) = length l)
    (Hinv : length (deck_cards d) + length (discard_pile d)
            = number_of_decks rules * 52) :
  draw_respects_shoe shuffle rules d.
Proof.
  unfold draw_respects_shoe.
  destruct (deck_cards d) as [|x xs] eqn:Hc.
  - pose proof (draw_empty_reshuffle_or_exhausted shuffle rules d Hshuffle Hc)
      as Hd.
    simpl in Hinv. specialize (Hd Hinv). rewrite Hinv in Hd.
    destruct (Qlt_b _ _).
    + destruct Hd as [rest [c [Hs Hdraw]]]. rewrite Hdraw. simpl.
      split; [|split; [symmetry; exact Hs | reflexivity]].
      apply (f_equal (@length Card)) in Hs.
      rewrite Hshuffle, full_shoe_length, length_app in Hs. simpl in Hs. lia.
    + rewrite Hd. reflexivity.
  - unfold deck_draw, deck_pop. rewrite Hc.
    destruct (pop_last_nonempty (x :: xs)) as [rest [c Hp]]; [discriminate|].
    rewrite Hp. apply pop_last_some in Hp. simpl.
    split; [|split; [symmetry; exact Hp | reflexivity]].
    rewrite <- Hinv, Hp, !length_app. simpl. lia.
Qed.

(** ** Lemmas on the state monad *)

Lemma list_set_spec {X} (l : list X) (i : nat) (x : X) :
  i < length l ->
  exists l', list_set l i x = Some l' /\ length l' = length l
    /\ nth_error l' i = Some x
    /\ (forall j, j <> i -> nth_error l' j = nth_error l j).
Proof.
  revert i. induction l as [|y l IH]; intros i Hi; [simpl in Hi; lia|].
  destruct i as [|i].
  - exists (x :: l). repeat split. intros [|j] Hj; [lia|reflexivity].
  - simpl in Hi. destruct (IH i ltac:(lia)) as [l' [E [Hl [Hn Ho]]]].
    exists (y :: l'). simpl. rewrite E. repeat split; simpl; auto.
    intros [|j] Hj; [reflexivity|]. apply Ho. lia.
Qed.

Lemma list_insert_at {X} (l : list X) (i : nat) (x : X) :
  i < length l ->
  nth_error (list_insert l (S i) x) i = nth_error l i
  /\ nth_error (list_insert l (S i) x) (S i) = Some x.
Proof.
  revert i. induction l as [|y l IH]; intros i Hi; [simpl in Hi; lia|].
  destruct i as [|i].
  - destruct l; split; reflexivity.
  - simpl in Hi. destruct (IH i ltac:(lia)) as [H1 H2]. split; assumption.
Qed.

Lemma put_hand_spec (i : nat) (x : Hand) (g : Game) :
  i < length (hands (player g)) ->
  exists hs, put_hand i x g = Ret tt (set_hands hs g)
    /\ length hs = length (hands (player g))
    /\ nth_error hs i = Some x
    /\ (forall j, j <> i -> nth_error hs j = nth_error (hands (player g)) j).
Proof.
  intros Hi. destruct (list_set_spec (hands (player g)) i x Hi) as [l' [E H]].
  exists l'. unfold put_hand. rewrite E. split; [reflexivity | exact H].
Qed.

Lemma draw_player (shuffle : list Card -> list Card) (rules : BlackjackRules)
    (g g' : Game) (c : option Card) :
  draw shuffle rules g = Ret c g' ->
  player g' = player g /\ dealer_hand g' = dealer_hand g
  /\ round_state g' = round_state g.
Proof.
  unfold draw. destruct (deck_draw shuffle rules (deck g)); intros H;
    inversion H; subst; repeat split.
Qed.

Lemma validate_pass {X} (f : FName) (body : M X) (g : Game) :
  f <> FStartRound -> f <> FPlayRound -> validated g -> validate f body g = body g.
Proof.
  intros Hf1 Hf2 [Hd [Hb [Hn Hc]]]. unfold validate.
  destruct (deck_cards (deck g)), (discard_pile (deck g));
    [destruct Hd as [Hd|Hd]; contradiction| | |];
  (unfold Qle_b; unfold Qlt_b in Hb; destruct (Qle_bool _ _); [discriminate|]);
  destruct f; try contradiction;
  destruct (round_state g); simpl; congruence.
Qed.

Lemma validate_outcome {X} (f : FName) (body : M X) (g : Game) :
  (exists e, validate f body g = Raise e g) \/ validate f body g = body g.
Proof.
  unfold validate.
  destruct (match deck_cards (deck g), discard_pile (deck g) with
            | [], [] => true | _, _ => false end); [left; eauto|].
  destruct (Qle_b _ _); [left; eauto|].
  destruct f; cbv zeta;
  repeat match goal with
         | |- context [if ?b then _ else _] => destruct b
         end;
  first [right; reflexivity | left; eauto].
Qed.


Lemma validate_no_funds {X} (f : FName) (body : M X) (g : Game) :
  (bankroll (player g) <= 0)%Q -> raises_game_error (validate f body g) g.
Proof.
  intros Hb. apply Qle_bool_iff in Hb. unfold validate, raises_game_error.
  destruct (match deck_cards (deck g), discard_pile (deck g) with
            | [], [] => true | _, _ => false end);
    [eauto | unfold Qle_b; rewrite Hb; eauto].
Qed.

(** C10: every method wrapped by [validate_game_state] ([hit],
    [double_down], [split], [surrender], [place_insurance],
    [take_even_money], [finish_round], [play_round]) raises a game error
    without touching the game whenever the bankroll is at most 0, whatever
    the round state and the arguments. *)
Theorem no_funds_every_action_raises (shuffle : list Card -> list Card)
    (rules : BlackjackRules) (g : Game)
    (Hbroke : (bankroll (player g) <= 0)%Q) :
  (forall i, raises_game_error (hit shuffle rules i g) g)
  /\ (forall i, raises_game_error (double_down shuffle rules i g) g)
  /\ (forall i, raises_game_error (split shuffle rules i g) g)
  /\ (forall i, raises_game_error (surrender rules i g) g)
  /\ (forall i, raises_game_error (place_insurance rules i g) g)
  /\ (forall i, raises_game_error (take_even_money rules i g) g)
  /\ raises_game_error (finish_round shuffle rules g) g
  /\ (forall b, raises_game_error (play_round shuffle rules b g) g).
Proof.
  repeat split; intros; apply validate_no_funds; exact Hbroke.
Qed.


Lemma hand_value_ge_low (h : Hand) : low_total (cards h) <= hand_value h.
Proof.
  rewrite <- low_total_split. unfold hand_value.
  destruct (_ && _); lia.
Qed.

Lemma low_total_app (cs : list Card) (c : Card) :
  low_total cs + 1 <= low_total (cs ++ [c]).
Proof.
  induction cs as [|d cs IH]; simpl.
  - destruct c as [s r]; unfold is_ace, card_get_value; destruct r; simpl; lia.
  - lia.
Qed.

Lemma draw_outcome (shuffle : list Card -> list Card) (rules : BlackjackRules) (g : Game) :
  (exists c d, draw shuffle rules g = Ret (Some c) (set_deck d g))
  \/ (exists d, draw shuffle rules g = Ret None (set_deck d g))
  \/ (exists d, draw shuffle rules g = Raise IndexError (set_deck d g)).
Proof.
  unfold draw. destruct (deck_draw shuffle rules (deck g)); eauto 6.
Qed.

Lemma full_shoe_count (n : nat) (c : Card) :
  count_occ card_eq_dec (full_shoe n) c = n.
Proof.
  unfold full_shoe. induction n as [|n IH]; [reflexivity|].
  cbn [repeat concat]. rewrite count_occ_app, IH.
  destruct c as [s r]; destruct s, r; reflexivity.
Qed.

(** X2: If [random.shuffle] permutes the list, [Deck.reset] leaves an empty
    discard pile and a shoe of [number_of_decks * 52] cards holding each card
    exactly [number_of_decks] times. *)
Theorem deck_reset_each_card_per_deck (shuffle : list Card -> list Card)
    (rules : BlackjackRules) (Hperm : forall l, Permutation l (shuffle l)) :
  discard_pile (deck_reset shuffle rules) = []
  /\ length (deck_cards (deck_reset shuffle rules)) = number_of_decks rules * 52
  /\ forall c, count_occ card_eq_dec (deck_cards (deck_reset shuffle rules)) c
               = number_of_decks rules.
Proof.
  unfold deck_reset. cbn [deck_cards discard_pile].
  split; [reflexivity|]. split.
  - rewrite <- (Permutation_length (Hperm _)). apply full_shoe_length.
  - intros c. rewrite <- (proj1 (Permutation_count_occ card_eq_dec _ _) (Hperm _)).
    apply full_shoe_count.
Qed.

Lemma Qlt_b_spec (x y : Q) : Qlt_b x y = true <-> (x < y)%Q.
Proof.
  unfold Qlt_b. rewrite negb_true_iff. split; intros H.
  - apply Qnot_le_lt. intros H'. apply Qle_bool_iff in H'. congruence.
  - destruct (Qle_bool y x) eqn:E; [|reflexivity].
    apply Qle_bool_iff in E. exfalso. exact (Qlt_not_le _ _ H E).
Qed.

Lemma nth_error_lt {X} (l : list X) (i : nat) (x : X) :
  nth_error l i = Some x -> i < length l.
Proof. intros H. apply nth_error_Some. congruence. Qed.


Lemma place_insurance_ok (rules : BlackjackRules) (g : Game) (i : nat) (h : Hand) (ups : list Card)
    (c : Card) (Hv : validated g) (Ho : insurance_offered rules = true)
    (Hu : cards (dealer_hand g) = c :: ups) (Ha : is_ace c = true)
    (Hn : nth_error (hands (player g)) i = Some h)
    (Hb : (original_bet h * (1 # 2) <= bankroll (player g))%Q) :
  exists g', place_insurance rules i g = Ret true g'
  /\ bankroll (player g') = (bankroll (player g) + - (original_bet h * (1 # 2)))%Q
  /\ nth_error (hands (player g')) i = Some (set_insurance h (original_bet h * (1 # 2)))
  /\ stats (player g') = stats_insurance (stats (player g)) (original_bet h * (1 # 2))
  /\ deck g' = deck g /\ dealer_hand g' = dealer_hand g /\ round_state g' = round_state g.
Proof.
  unfold place_insurance. rewrite validate_pass by (discriminate || exact Hv).
  cbv beta iota delta [bind gets ret modify get_hand get_dealer_upcard].
  rewrite Ho. cbn [negb]. cbv beta iota. rewrite Hu. cbv beta iota. rewrite Ha. cbn [negb]. cbv beta iota. rewrite Hn. cbv beta iota zeta.
  assert (Hlt : Qlt_b (bankroll (player g)) (original_bet h * (1 # 2)) = false).
  { unfold Qlt_b. apply negb_false_iff, Qle_bool_iff, Hb. }
  rewrite Hlt.
  destruct (put_hand_spec i (set_insurance h (original_bet h * (1 # 2)))
              (add_bankroll (- (original_bet h * (1 # 2))) g))
    as [hs [Ep [_ [Hi _]]]]; [exact (nth_error_lt _ _ _ Hn)|].
  rewrite Ep. eexists; split; [reflexivity|]. cbn. repeat split; exact Hi.
Qed.

(** X12: [place_insurance] does not check for an earlier insurance: called
    twice on the same hand, both calls succeed, the bankroll is debited twice
    and the hand keeps one insurance bet. *)
Theorem place_insurance_twice (rules : BlackjackRules) (g : Game) (i : nat) (h : Hand)
    (ups : list Card) (c : Card) (Hv : validated g) (Ho : insurance_offered rules = true)
    (Hu : cards (dealer_hand g) = c :: ups) (Ha : is_ace c = true)
    (Hn : nth_error (hands (player g)) i = Some h)
    (Hb : (original_bet h <= bankroll (player g))%Q) :
  exists g1 g2, place_insurance rules i g = Ret true g1
  /\ place_insurance rules i g1 = Ret true g2
  /\ bankroll (player g2)
     = (bankroll (player g) + - (original_bet h * (1 # 2))
        + - (original_bet h * (1 # 2)))%Q
  /\ nth_error (hands (player g2)) i = Some (set_insurance h (original_bet h * (1 # 2)))
  /\ stats (player g2)
     = stats_insurance (stats_insurance (stats (player g)) (original_bet h * (1 # 2)))
         (original_bet h * (1 # 2)).
Proof.
  assert (Hp : (0 < bankroll (player g))%Q).
  { destruct Hv as [_ [Hp _]]. apply Qlt_b_spec, Hp. }
  destruct (place_insurance_ok rules g i h ups c Hv Ho Hu Ha Hn) as
    [g1 [E1 [B1 [N1 [S1 [D1 [H1 R1]]]]]]]; [lra|].
  assert (Hv1 : validated g1).
  { destruct Hv as [Hk [_ [Hns Hnc]]]. unfold validated.
    rewrite D1, R1, B1. refine (conj Hk (conj _ (conj Hns Hnc))).
    apply Qlt_b_spec. lra. }
  destruct (place_insurance_ok rules g1 i _ ups c Hv1 Ho ltac:(rewrite H1; exact Hu) Ha N1)
    as [g2 [E2 [B2 [N2 [S2 _]]]]]; [cbn [set_insurance original_bet]; rewrite B1; lra|].
  exists g1, g2. rewrite B2, N2, S2, B1, S1. cbn [set_insurance original_bet].
  auto.
Qed.


Lemma label_ace (c : Card) : String.eqb (strategy_label (rank c)) "A"%string = is_ace c.
Proof. destruct c as [s r]; destruct r; reflexivity. Qed.

Lemma ace_label (c : Card) : String.eqb "A"%string (strategy_label (rank c)) = is_ace c.
Proof. destruct c as [s r]; destruct r; reflexivity. Qed.

Lemma label_value (c : Card) : is_ace c = false ->
  (if str_in (strategy_label (rank c)) ten_labels then Some 10
   else py_int (strategy_label (rank c))) = Some (card_get_value c).
Proof. destruct c as [s r]; destruct r; first [reflexivity | discriminate]. Qed.

Lemma non_ace_value_cons (c : Card) (cs : list Card) :
  non_ace_value (c :: cs)
  = if is_ace c then non_ace_value cs else card_get_value c + non_ace_value cs.
Proof. unfold non_ace_value. simpl. destruct (is_ace c); reflexivity. Qed.

Lemma non_ace_sum_labels (cs : list Card) :
  non_ace_sum (strategy_labels cs) = Some (non_ace_value cs).
Proof.
  induction cs as [|c cs IH]; [reflexivity|].
  cbn [strategy_labels map non_ace_sum]. fold (strategy_labels cs).
  rewrite label_ace, non_ace_value_cons.
  destruct (is_ace c) eqn:Ha; [exact IH|].
  rewrite (label_value c Ha), IH. reflexivity.
Qed.

Lemma count_aces_labels (cs : list Card) :
  count_aces (strategy_labels cs) = ace_count cs.
Proof.
  induction cs as [|c cs IH]; [reflexivity|].
  unfold count_aces, ace_count in *. cbn [strategy_labels map filter].
  fold (strategy_labels cs). rewrite label_ace.
  destruct (is_ace c); cbn [length]; congruence.
Qed.

Lemma has_ace_labels (cs : list Card) :
  str_in "A"%string (strategy_labels cs) = existsb is_ace cs.
Proof.
  induction cs as [|c cs IH]; [reflexivity|].
  unfold str_in in *. cbn [strategy_labels map existsb].
  fold (strategy_labels cs). rewrite ace_label, IH. reflexivity.
Qed.

Lemma low_total_ge_length (cs : list Card) : length cs <= low_total cs.
Proof.
  induction cs as [|c cs IH]; [reflexivity|]. cbn [low_total fold_right length].
  fold (low_total cs).
  destruct c as [s r]; unfold is_ace, card_get_value; destruct r; simpl; lia.
Qed.

Lemma low_total_no_ace (cs : list Card) :
  existsb is_ace cs = false -> 2 * length cs <= low_total cs.
Proof.
  induction cs as [|c cs IH]; [reflexivity|]. cbn [low_total fold_right length existsb].
  fold (low_total cs). intros H. apply orb_false_iff in H as [H1 H2].
  specialize (IH H2). rewrite H1.
  destruct c as [s r]; unfold is_ace, card_get_value in *; destruct r;
    simpl in *; try discriminate; lia.
Qed.

(** A hand of at least two cards that is not a pair of equal labels
    counts at least 3 with aces low. *)
Lemma low_total_non_pair (cs : list Card) :
  2 <= length cs -> is_pair (strategy_labels cs) = false -> 3 <= low_total cs.
Proof.
  intros Hl Hp. destruct cs as [|c0 [|c1 [|c2 rest]]]; cbn [length] in Hl; try lia.
  - revert Hp. destruct c0 as [s0 r0], c1 as [s1 r1].
    destruct r0, r1; cbv; first [discriminate | intros; lia].
  - pose proof (low_total_ge_length (c0 :: c1 :: c2 :: rest)). cbn [length] in H. lia.
Qed.

Lemma lookup_in {K V} (eqb : K -> K -> bool) (k : K) (t : list (K * V)) (v : V) :
  lookup eqb k t = Some v -> In v (map snd t).
Proof.
  induction t as [|[k' v'] t IH]; cbn [lookup]; [discriminate|].
  destruct (eqb k k'); [intros H; inversion H; left; reflexivity | intros H; right; auto].
Qed.

Lemma table_rows_ok {K} (eqb : K -> K -> bool) (tbl : list (K * list (nat * string))) :
  forallb row_ok (map snd tbl) = true ->
  forall k row, lookup eqb k tbl = Some row ->
  forall dv, 1 <= dv <= 10 -> exists a, table_action (Some row) dv = Some a.
Proof.
  intros Hall k row Hk dv Hdv.
  pose proof (proj1 (forallb_forall _ _) Hall row (lookup_in _ _ _ _ Hk)) as Hr.
  unfold row_ok in Hr.
  assert (Hin : In dv (seq 1 10)) by (apply in_seq; lia).
  pose proof (proj1 (forallb_forall _ _) Hr dv Hin) as Hd. cbv beta in Hd.
  destruct (table_action (Some row) dv); [eauto | discriminate].
Qed.

Lemma key_present {V} (tbl : list (nat * V)) (lo n : nat) :
  forallb (fun t => match lookup Nat.eqb t tbl with Some _ => true | None => false end)
    (seq lo n) = true ->
  forall t, lo <= t < lo + n -> exists row, lookup Nat.eqb t tbl = Some row.
Proof.
  intros Hall t Ht.
  assert (Hin : In t (seq lo n)) by (apply in_seq; lia).
  pose proof (proj1 (forallb_forall _ _) Hall t Hin) as Hd. cbv beta in Hd.
  destruct (lookup Nat.eqb t tbl); [eauto | discriminate].
Qed.

Lemma dealer_label_value (r : Rank) :
  exists dv, 1 <= dv <= 10 /\
  (if String.eqb (strategy_label r) "A" then Some 1
   else if str_in (strategy_label r) ten_labels then Some 10
   else py_int (strategy_label r)) = Some dv.
Proof. destruct r; vm_compute; eexists; (split; [| reflexivity]); lia. Qed.

Lemma hard_action_ok (cs : list Card) (dv : nat) :
  4 <= low_total cs <= 21 -> 1 <= dv <= 10 ->
  exists a, hard_action (strategy_labels cs) dv = Some a.
Proof.
  intros Hl Hdv. unfold hard_action.
  rewrite non_ace_sum_labels, count_aces_labels, low_total_split.
  destruct (key_present hard_totals 4 18 eq_refl (low_total cs) ltac:(lia)) as [row Hrow].
  rewrite Hrow. exact (table_rows_ok Nat.eqb hard_totals eq_refl _ _ Hrow dv Hdv).
Qed.

Lemma get_action_live (h : Hand) (d : Card)
    (Hlen : 2 <= length (cards h)) (Hlow : low_total (cards h) <= 21) :
  exists a, get_action (strategy_hand h) (strategy_label (rank d)) = Some a.
Proof.
  change (strategy_hand h) with (strategy_labels (cards h)).
  unfold get_action.
  destruct (dealer_label_value (rank d)) as [dv [Hdv Hd]]. rewrite Hd.
  destruct (is_pair (strategy_labels (cards h))) eqn:Hp.
  - destruct (cards h) as [|c0 [|c1 [|c2 rest]]]; cbn [length] in Hlen; try lia;
      [|discriminate].
    cbn [strategy_labels map hd].
    destruct (lookup String.eqb _ pairs) as [row|] eqn:Hrow.
    + exact (table_rows_ok String.eqb pairs eq_refl _ _ Hrow dv Hdv).
    + exfalso. revert Hrow. destruct c0 as [s r]; destruct r; cbv; discriminate.
  - pose proof (low_total_non_pair (cards h) Hlen Hp) as H3.
    rewrite has_ace_labels.
    destruct (existsb is_ace (cards h)) eqn:Ha.
    + rewrite non_ace_sum_labels, count_aces_labels.
      assert (Hpos : 1 <= ace_count (cards h)).
      { pose proof (ace_count_pos (cards h)) as E. rewrite Ha in E.
        apply Nat.ltb_lt in E. lia. }
      pose proof (low_total_split (cards h)) as Hs.
      destruct (Nat.leb (non_ace_value (cards h) + 11 + (ace_count (cards h) - 1)) 21) eqn:Hle.
      * apply Nat.leb_le in Hle.
        assert (Hr : 13 <= non_ace_value (cards h) + 11 + (ace_count (cards h) - 1) < 13 + 9)
          by lia.
        destruct (key_present soft_totals 13 9 eq_refl _ Hr) as [row Hrow].
        rewrite Hrow. cbn [andb].
        exact (table_rows_ok Nat.eqb soft_totals eq_refl _ _ Hrow dv Hdv).
      * apply Nat.leb_gt in Hle. cbn [andb].
        apply hard_action_ok; [lia | exact Hdv].
    + apply hard_action_ok; [|exact Hdv].
      pose proof (low_total_no_ace (cards h) Ha). lia.
Qed.

(** ** The engine: settlement, moves and rounds *)

Lemma can_surrender_two (rules : BlackjackRules) (h : Hand) :
  can_surrender rules h = true -> length (cards h) = 2.
Proof.
  unfold can_surrender. intros H.
  destruct (length (cards h) =? 2) eqn:E; [apply Nat.eqb_eq; exact E|].
  rewrite andb_false_r in H. discriminate.
Qed.

Lemma validated_frame (g g' : Game) :
  validated g -> deck g' = deck g -> round_state g' = round_state g ->
  (bankroll (player g) <= bankroll (player g'))%Q -> validated g'.
Proof.
  intros [Hk [Hp [Hns Hnc]]] Hd Hr Hb. unfold validated.
  rewrite Hd, Hr. refine (conj Hk (conj _ (conj Hns Hnc))).
  apply Qlt_b_spec. apply Qlt_b_spec in Hp. lra.
Qed.

(** C1: [surrender] on a two-card hand credits half the bet and counts
    the surrender, then raises [RecursionError] from [str(hand)] in
    [update_stats] before [hands_played] is counted; [finish_round] then
    raises [RecursionError] from [is_done] on that hand.  [take_even_money]
    raises [RecursionError] whenever even money is offered.  So no hand is
    settled early exactly once and then skipped by [finish_round]. *)
Theorem surrender_settlement_raises (shuffle : list Card -> list Card)
    (rules : BlackjackRules) (g : Game) (h : Hand) (hs : list Hand)
    (Hv : validated g) (Hh : hands (player g) = h :: hs)
    (Hc : can_surrender rules h = true) (Hb : (0 <= bet h)%Q)
    (Hd : cards (dealer_hand g) <> []) :
  (exists g', surrender rules 0 g = Raise RecursionError g'
     /\ bankroll (player g') = (bankroll (player g) + bet h * (1 # 2))%Q
     /\ hands (player g') = set_surrendered h :: hs
     /\ stats (player g')
        = update_counts (stats (player g)) SURRENDER (bet h * (1 # 2)) (set_surrendered h)
     /\ hands_played (stats (player g')) = hands_played (stats (player g))
     /\ hands_surrendered (stats (player g')) = S (hands_surrendered (stats (player g)))
     /\ finish_round shuffle rules g' = Raise RecursionError g')
  /\ (even_money_offered rules = true ->
      take_even_money rules 0 g = Raise RecursionError g).
Proof.
  assert (Hl : length (cards h) = 2) by exact (can_surrender_two rules h Hc).
  split.
  - unfold surrender. rewrite validate_pass by (discriminate || exact Hv).
    run. rewrite Hh. cbn [nth_error list_set]. rewrite Hc. cbn [negb].
    rewrite Hh. cbn [list_set]. run.
    rewrite (hand_str_two (set_surrendered h) Hl).
    eexists. split; [reflexivity|].
    cbn.
    destruct (stats (player g)) as [pl wo lo pu su bj sp db it iw tw tl bw bl wg]. cbn.
    repeat split; try reflexivity.
    unfold finish_round. rewrite validate_pass.
    + run. cbn [hands player map_stats add_bankroll set_hands set_player].
      rewrite (all_done_head_two (set_surrendered h) hs Hl). reflexivity.
    + discriminate.
    + discriminate.
    + eapply validated_frame; [exact Hv | reflexivity | reflexivity |].
      cbn. lra.
  - intros He. unfold take_even_money. rewrite validate_pass by (discriminate || exact Hv).
    run. rewrite Hh. cbn [nth_error].
    destruct (cards (dealer_hand g)) as [|up ups] eqn:Eu; [contradiction|].
    unfold can_take_even_money. rewrite He, (is_blackjack_two h Hl). reflexivity.
Qed.

Lemma compare_chain {X} (pv dv : nat) (w l p : X) :
  (if dv <? pv then w else if pv <? dv then l else p)
  = (if dv <? pv then w else if pv =? dv then p else l).
Proof.
  destruct (dv <? pv) eqn:E1; [reflexivity|].
  destruct (pv <? dv) eqn:E2; destruct (pv =? dv) eqn:E3; try reflexivity;
  apply Nat.ltb_ge in E1;
  [apply Nat.ltb_lt in E2; apply Nat.eqb_eq in E3
  |apply Nat.ltb_ge in E2; apply Nat.eqb_neq in E3]; lia.
Qed.

Lemma validate_checks_pass {X} (f : FName) (body : M X) (g : Game) :
  (deck_cards (deck g) <> [] \/ discard_pile (deck g) <> []) ->
  Qlt_b 0 (bankroll (player g)) = true ->
  validate f body g
  = match f with
    | FStartRound => body g
    | _ =>
        let exempt := match f with
                      | FPlayRound | FStartRound => true
                      | _ => false end in
        if round_state_eqb (round_state g) NOT_STARTED && negb exempt
        then Raise ErrNotStarted g
        else if round_state_eqb (round_state g) COMPLETE && negb exempt
        then Raise ErrComplete g
        else body g
    end.
Proof.
  intros Hd Hb. unfold validate.
  destruct (deck_cards (deck g)), (discard_pile (deck g));
    [destruct Hd as [Hd|Hd]; contradiction| | |];
  (unfold Qle_b; unfold Qlt_b in Hb; destruct (Qle_bool _ _); [discriminate|]);
  reflexivity.
Qed.

(** C3: [finish_round] raises [RecursionError], leaving the player, the
    shoe and the dealer unchanged, when the first hand holds two cards (its
    [is_done] recurses), or when some hand is not done and the dealer holds
    two cards (the dealer loop's [get_value] recurses).  From such a state
    the dead-hand settlement is never reached. *)
Theorem dead_hand_settlement_raises (shuffle : list Card -> list Card)
    (rules : BlackjackRules) (g : Game) (Hv : validated g)
    (H2 : (exists h hs, hands (player g) = h :: hs /\ length (cards h) = 2)
          \/ (all_done (hands (player g)) = Some false
              /\ length (cards (dealer_hand g)) = 2)) :
  exists g', finish_round shuffle rules g = Raise RecursionError g'
    /\ player g' = player g /\ deck g' = deck g /\ dealer_hand g' = dealer_hand g.
Proof.
  unfold finish_round. rewrite validate_pass by (discriminate || exact Hv).
  run. destruct H2 as [[h [hs [Hh Hl]]] | [Ha Hl]].
  - rewrite Hh, (all_done_head_two h hs Hl). exists g. auto.
  - rewrite Ha. cbn [negb]. unfold play_dealer_hand. cbn [dealer_loop]. run.
    cbn [dealer_hand set_state]. rewrite (get_value_two _ Hl).
    eexists. split; [reflexivity|]. auto.
Qed.

(** C4: With cards in the shoe and funds, [start_round] raises
    [GameError('Previous round not complete')] whenever the round is
    [COMPLETE].  Such a state is reached: [play_round] completes on a
    single-deck game whose shoe was spent by failed [start_round] calls, and
    [start_round] then raises that error. *)
Theorem start_round_after_complete_raises :
  (forall shuffle rules b g,
     (deck_cards (deck g) <> [] \/ discard_pile (deck g) <> []) ->
     Qlt_b 0 (bankroll (player g)) = true -> round_state g = COMPLETE ->
     start_round shuffle rules b g = Raise ErrPrevRound g)
  /\ exists rr g, play_round shuffle_rev one_deck_rules 10 exhausted_game = Ret rr g
       /\ round_state g = COMPLETE
       /\ start_round shuffle_rev one_deck_rules 10 g = Raise ErrPrevRound g.
Proof.
  split.
  - intros shuffle rules b g Hd Hb Hc. unfold start_round.
    rewrite (validate_checks_pass _ _ g Hd Hb). run. rewrite Hc. reflexivity.
  - remember (play_round shuffle_rev one_deck_rules 10 exhausted_game) as r eqn:E.
    vm_compute in E. subst r. eexists _, _. split; [reflexivity|].
    split; [reflexivity|]. vm_compute. reflexivity.
Qed.

(** C6: [resolve_hand] raises [RecursionError] (here [None]) on a hand not
    surrendered whenever the player's or the dealer's hand holds two cards,
    so two naturals are never resolved to a push.  On hands of other lengths
    it follows the precedence the spec lists. *)
Theorem resolve_both_naturals_raise (rules : BlackjackRules) (dh h : Hand)
    (Hs : is_surrendered h = false)
    (H2 : length (cards h) = 2 \/ length (cards dh) = 2) :
  resolve_hand rules dh h = None
  /\ (forall dh' h', is_surrendered h' = false -> length (cards h') <> 2 ->
        length (cards dh') <> 2 ->
        resolve_hand rules dh' h' = Some (resolve_spec rules dh' h')).
Proof.
  split.
  - unfold resolve_hand. rewrite Hs. destruct H2 as [Hl|Hl].
    + rewrite (get_value_two h Hl). reflexivity.
    + destruct (get_value h) as [[pv pb]|]; [|reflexivity].
      rewrite (get_value_two dh Hl). reflexivity.
  - intros dh' h' Hs' Hl Hdl. unfold resolve_hand, resolve_spec, spec_natural.
    rewrite Hs', (get_value_other h' Hl), (get_value_other dh' Hdl).
    apply Nat.eqb_neq in Hl. apply Nat.eqb_neq in Hdl. rewrite Hl, Hdl.
    cbn [andb negb]. f_equal.
    destruct (21 <? hand_value h'); [reflexivity|].
    destruct (21 <? hand_value dh'); [reflexivity|].
    apply compare_chain.
Qed.

(** C7: On a split-aces hand holding two cards, [is_done] raises
    [RecursionError], so [add_card] and [hit] on it raise instead of
    returning [False].  With more than two cards such a hand is done and
    [add_card] returns [False], leaving it unchanged. *)
Theorem split_aces_two_cards_raise (h : Hand) (c : Card)
    (Haces : split_from_aces h = true) (Hlen : length (cards h) = 2) :
  is_done h = None
  /\ add_card h c = (h, None)
  /\ (forall shuffle rules g i, validated g -> nth_error (hands (player g)) i = Some h ->
        hit shuffle rules i g = Raise RecursionError g)
  /\ (forall h', split_from_aces h' = true -> 2 < length (cards h') ->
        is_done h' = Some true /\ add_card h' c = (h', Some false)).
Proof.
  refine (conj (is_done_two h Hlen) (conj (add_card_two h c Hlen) (conj _ _))).
  - intros shuffle rules g i Hv Hn. unfold hit.
    rewrite validate_pass by (discriminate || exact Hv).
    run. rewrite Hn. rewrite (is_done_two h Hlen). reflexivity.
  - intros h' Ha Hl.
    assert (Hd : is_done h' = Some true).
    { rewrite is_done_other by lia. rewrite Ha.
      replace (1 <? length (cards h')) with true by (symmetry; apply Nat.ltb_lt; lia).
      rewrite !orb_true_r. reflexivity. }
    split; [exact Hd | exact (add_card_done h' c Hd)].
Qed.

(** C8: [get_value], [is_busted] and [is_blackjack] raise [RecursionError]
    on every two-card hand.  On other hands [get_value] is the low-ace total
    plus 10 exactly when an ace is present and the result is at most 21; a
    value of at most 21 is not busted; and [is_soft] holds iff an ace is
    present and the low total plus 10 is at most 21. *)
Theorem hand_value_two_cards_raise (h : Hand) :
  (length (cards h) = 2 ->
     get_value h = None /\ is_busted h = None /\ is_blackjack h = None)
  /\ (length (cards h) <> 2 ->
     get_value h = Some (if existsb is_ace (cards h) && (low_total (cards h) + 10 <=? 21)
                         then low_total (cards h) + 10 else low_total (cards h), false))
  /\ (forall v b, get_value h = Some (v, b) -> v <= 21 -> is_busted h = Some false)
  /\ is_soft h = existsb is_ace (cards h) && (low_total (cards h) + 10 <=? 21).
Proof.
  refine (conj _ (conj _ (conj _ _))).
  - intros Hl. refine (conj (get_value_two h Hl) (conj (is_busted_two h Hl)
      (is_blackjack_two h Hl))).
  - intros Hl. rewrite (get_value_other h Hl). unfold hand_value.
    rewrite ace_count_pos, low_total_split. reflexivity.
  - intros v b Hg Hv. unfold is_busted. rewrite Hg. f_equal. apply Nat.ltb_ge. exact Hv.
  - unfold is_soft. rewrite ace_count_pos.
    destruct (existsb is_ace (cards h)) eqn:E; [|reflexivity]. cbn [andb].
    assert (Hpos : 0 < ace_count (cards h)).
    { apply Nat.ltb_lt. rewrite ace_count_pos. exact E. }
    pose proof (low_total_split (cards h)).
    replace (non_ace_value (cards h) + ace_count (cards h) - 1 + 11)
      with (low_total (cards h) + 10) by lia.
    reflexivity.
Qed.

(** C5: Operations leave partial mutations.  [start_round(10)] on a new
    game debits and records the bet and deals two cards before raising
    [RecursionError].  [split] on a pair of eights with a spent shoe returns
    [False] with the hand cut to one card and flagged split.  [double_down]
    on 11 with a spent shoe raises after debiting the bet, doubling it and
    counting the double. *)
Theorem partial_mutations :
  (exists g1, start_round shuffle_rev default_rules 10 fresh_game = Raise RecursionError g1
     /\ (bankroll (player g1) == 990)%Q
     /\ stats (player g1) = stats_bet zero_stats 10
     /\ map (fun h => length (cards h)) (hands (player g1)) = [2]
     /\ length (cards (dealer_hand g1)) = 1
     /\ round_state g1 = NOT_STARTED)
  /\ (exists g2, split shuffle_rev one_deck_rules 0 spent_pair_game = Ret false g2
     /\ hands (player g2) = [set_is_split (hand_of [mkCard Spades R8] 10)]
     /\ bankroll (player g2) = bankroll (player spent_pair_game)
     /\ stats (player g2) = stats (player spent_pair_game))
  /\ (exists g3, double_down shuffle_rev one_deck_rules 0 spent_eleven_game
                 = Raise RecursionError g3
     /\ (bankroll (player g3) == 980)%Q
     /\ hands (player g3) = [set_doubled (hand_of [mkCard Spades R5; mkCard Spades R6] 10)]
     /\ stats (player g3) = stats_double zero_stats 10
     /\ deck g3 = spent_deck).
Proof.
  split; [|split].
  - settle_concrete (start_round shuffle_rev default_rules 10 fresh_game).
  - settle_concrete (split shuffle_rev one_deck_rules 0 spent_pair_game).
  - settle_concrete (double_down shuffle_rev one_deck_rules 0 spent_eleven_game).
Qed.

Lemma dealer_loop_stands (shuffle : list Card -> list Card) (rules : BlackjackRules)
    (n : nat) : forall g g',
  is_surrendered (dealer_hand g) = false -> took_even_money (dealer_hand g) = false ->
  is_doubled (dealer_hand g) = false -> split_from_aces (dealer_hand g) = false ->
  19 <= low_total (cards (dealer_hand g)) + n ->
  (n = 0 -> length (cards (dealer_hand g)) <> 2) ->
  dealer_loop shuffle rules n g = Ret true g' ->
  exists v, get_value (dealer_hand g') = Some (v, false)
    /\ (17 < v \/ (v = 17 /\ is_soft (dealer_hand g') = false)).
Proof.
  induction n as [|n IH]; intros g g' Hs He Hd Ha Hn Hz H.
  - inversion H; subst. exists (hand_value (dealer_hand g')).
    rewrite (get_value_other _ (Hz eq_refl)). split; [reflexivity|].
    left. pose proof (hand_value_ge_low (dealer_hand g')). lia.
  - cbn [dealer_loop] in H. cbv beta iota zeta delta [bind gets ret lift modify] in H.
    destruct (Nat.eq_dec (length (cards (dealer_hand g))) 2) as [Hl|Hl].
    { rewrite (get_value_two _ Hl) in H. discriminate. }
    rewrite (get_value_other _ Hl) in H. cbn [fst] in H.
    destruct (17 <? hand_value (dealer_hand g)) eqn:E17.
    { inversion H; subst. exists (hand_value (dealer_hand g')).
      rewrite (get_value_other _ Hl). split; [reflexivity|].
      left. apply Nat.ltb_lt. exact E17. }
    destruct ((hand_value (dealer_hand g) =? 17) && negb (is_soft (dealer_hand g))) eqn:E.
    { inversion H; subst. exists (hand_value (dealer_hand g')).
      rewrite (get_value_other _ Hl). split; [reflexivity|].
      right. apply andb_true_iff in E as [E1 E2].
      apply Nat.eqb_eq in E1. apply negb_true_iff in E2. split; assumption. }
    destruct (draw_outcome shuffle rules g) as [[c [d Hdr]] | [[d Hdr] | [d Hdr]]];
      rewrite Hdr in H; [| discriminate | discriminate].
    assert (Hnd : is_done (dealer_hand g) = Some false).
    { rewrite (is_done_other _ Hl), Hs, He, Hd, Ha. apply Nat.ltb_ge in E17.
      replace (21 <? hand_value (dealer_hand g)) with false
        by (symmetry; apply Nat.ltb_ge; lia).
      reflexivity. }
    rewrite (add_card_appends _ c Hnd) in H.
    destruct (length (cards (dealer_hand g)) =? 1) eqn:E1; [discriminate|].
    apply Nat.eqb_neq in E1.
    eapply IH; [| | | | | | exact H];
      cbn [set_dealer set_deck dealer_hand set_cards cards is_surrendered
           took_even_money is_doubled split_from_aces]; try assumption.
    + pose proof (low_total_app (cards (dealer_hand g)) c). lia.
    + intros _. rewrite length_snoc. lia.
Qed.

(** X1: When [play_dealer_hand] returns [True] on a dealer hand without
    surrender, even-money, double or split-aces flags, the dealer's hand is
    worth more than 17, or exactly 17 and not soft. *)
Theorem play_dealer_hand_stands (shuffle : list Card -> list Card)
    (rules : BlackjackRules) (g g' : Game)
    (Hs : is_surrendered (dealer_hand g) = false) (He : took_even_money (dealer_hand g) = false)
    (Hd : is_doubled (dealer_hand g) = false) (Ha : split_from_aces (dealer_hand g) = false)
    (Hp : play_dealer_hand shuffle rules g = Ret true g') :
  exists v, get_value (dealer_hand g') = Some (v, false)
    /\ (17 < v \/ (v = 17 /\ is_soft (dealer_hand g') = false)).
Proof.
  unfold play_dealer_hand, bind, modify in Hp.
  eapply dealer_loop_stands; [| | | | | | exact Hp]; cbn [set_state dealer_hand]; auto.
  - lia.
  - discriminate.
Qed.


Lemma is_blackjack_not_true (h : Hand) : is_blackjack h <> Some true.
Proof.
  destruct (Nat.eq_dec (length (cards h)) 2) as [E|E];
    [rewrite (is_blackjack_two h E) | rewrite (is_blackjack_other h E)]; discriminate.
Qed.

Lemma get_valid_moves_not_done (rules : BlackjackRules) (h : Hand) (g : Game) :
  is_done h = Some false ->
  get_valid_moves rules h g
  = Ret (if round_state_eqb (round_state g) PLAYER_TURN
         then ["hit"; "stand"]%string else []) g.
Proof.
  intros Hd. pose proof (is_done_some_length h false Hd) as Hl.
  unfold get_valid_moves. run.
  destruct (round_state_eqb (round_state g) PLAYER_TURN); [|reflexivity]. cbn [negb].
  rewrite Hd, (is_blackjack_other h Hl).
  assert (Hs : can_surrender rules h = false).
  { unfold can_surrender. apply Nat.eqb_neq in Hl. rewrite Hl, andb_false_r. reflexivity. }
  assert (Hdb : can_double rules h = false).
  { unfold can_double. apply Nat.eqb_neq in Hl. rewrite Hl. reflexivity. }
  assert (Hsp : can_split rules h = false).
  { unfold can_split. destruct (cards h) as [|c0 [|c1 [|c2 r]]]; try reflexivity.
    cbn in Hl. lia. }
  rewrite Hs, Hdb, Hsp. reflexivity.
Qed.

Lemma get_valid_moves_outcome (rules : BlackjackRules) (h : Hand) (g : Game) :
  get_valid_moves rules h g = Raise RecursionError g
  \/ get_valid_moves rules h g = Ret [] g
  \/ get_valid_moves rules h g = Ret ["hit"; "stand"]%string g.
Proof.
  destruct (is_done h) as [[|]|] eqn:Hd.
  - unfold get_valid_moves. run. rewrite Hd.
    destruct (round_state_eqb (round_state g) PLAYER_TURN); auto.
  - rewrite (get_valid_moves_not_done rules h g Hd).
    destruct (round_state_eqb (round_state g) PLAYER_TURN); auto.
  - unfold get_valid_moves. run. rewrite Hd.
    destruct (round_state_eqb (round_state g) PLAYER_TURN); auto.
Qed.

(** X4: On a hand of at least two cards that is not done, [get_action]
    finds a table entry, and [get_strategy_move] returns 'hit' or 'stand'
    without changing the game. *)
Theorem get_strategy_move_live (rules : BlackjackRules) (h : Hand) (up : Card) (g : Game)
    (Hlen : 2 <= length (cards h)) (Hnd : is_done h = Some false) :
  exists a m, get_action (strategy_hand h) (strategy_label (rank up)) = Some a
  /\ get_strategy_move rules h up g = Ret (Some m) g
  /\ (m = "hit"%string \/ m = "stand"%string).
Proof.
  assert (Hlow : low_total (cards h) <= 21).
  { pose proof (is_done_some_length h false Hnd) as Hl.
    rewrite (is_done_other h Hl) in Hnd.
    destruct (21 <? hand_value h) eqn:E; [discriminate|].
    apply Nat.ltb_ge in E. pose proof (hand_value_ge_low h). lia. }
  destruct (get_action_live h up Hlen Hlow) as [a Ha].
  unfold get_strategy_move. rewrite Ha. unfold convert_action_to_move. run.
  rewrite (get_valid_moves_not_done rules h g Hnd).
  exists a. destruct (round_state_eqb (round_state g) PLAYER_TURN);
    destruct a; eexists; (split; [reflexivity|]); (split; [reflexivity|]);
    first [left; reflexivity | right; reflexivity].
Qed.

Lemma take_even_money_outcome (rules : BlackjackRules) (i : nat) (g : Game) :
  take_even_money rules i g = Ret (false, 0%Q) g
  \/ exists e, take_even_money rules i g = Raise e g.
Proof.
  unfold take_even_money.
  match goal with
  | |- context [validate FTakeEvenMoney ?b g] =>
      destruct (validate_outcome FTakeEvenMoney b g) as [[e He]|He];
      rewrite He; [right; eauto|]
  end.
  run. destruct (nth_error (hands (player g)) i) as [h|]; [|right; eauto].
  destruct (cards (dealer_hand g)) as [|up ups]; [right; eauto|].
  unfold can_take_even_money. destruct (negb (even_money_offered rules)); [left; reflexivity|].
  destruct (is_blackjack h) as [[|]|] eqn:Eb;
    [exfalso; exact (is_blackjack_not_true h Eb) | left; reflexivity | right; eauto].
Qed.

(** X5: [take_even_money] returns (False, 0) or raises, and leaves the game
    unchanged.  [get_valid_moves] raises [RecursionError] or returns a list
    without 'even_money' and 'keep_blackjack'.  [execute_move] with
    'even_money' returns [False] or raises, and leaves the game unchanged. *)
Theorem even_money_unreachable (shuffle : list Card -> list Card) (rules : BlackjackRules) :
  (forall i g, take_even_money rules i g = Ret (false, 0%Q) g
               \/ exists e, take_even_money rules i g = Raise e g)
  /\ (forall h g, get_valid_moves rules h g = Raise RecursionError g
       \/ exists ms, get_valid_moves rules h g = Ret ms g
          /\ ~ In "even_money"%string ms /\ ~ In "keep_blackjack"%string ms)
  /\ (forall i g, execute_move shuffle rules "even_money" i g = Ret false g
                  \/ exists e, execute_move shuffle rules "even_money" i g = Raise e g).
Proof.
  refine (conj (take_even_money_outcome rules) (conj _ _)).
  - intros h g. destruct (get_valid_moves_outcome rules h g) as [E|[E|E]];
      [left; exact E| |]; right; eexists; (split; [exact E|]); cbn; intuition discriminate.
  - intros i g. unfold execute_move. run.
    destruct (round_state_eqb (round_state g) PLAYER_TURN); [|left; reflexivity].
    cbn [negb]. destruct (nth_error (hands (player g)) i) as [h|]; [|right; eauto].
    destruct (is_done h) as [[|]|]; [left; reflexivity| |right; eauto].
    cbn [String.eqb Ascii.eqb Bool.eqb andb].
    destruct (take_even_money_outcome rules i g) as [E|[e E]]; rewrite E;
      [left; reflexivity | right; eauto].
Qed.

(** X6: [execute_move] returns [False] and leaves the game unchanged outside
    the player's turn.  In the player's turn it raises [IndexError] past the
    last hand and [RecursionError] on a two-card hand, and it returns [False]
    with the game unchanged on a done hand or an unknown move. *)
Theorem execute_move_guards (shuffle : list Card -> list Card) (rules : BlackjackRules) :
  (forall m i g, round_state g <> PLAYER_TURN ->
     execute_move shuffle rules m i g = Ret false g)
  /\ (forall m i g, round_state g = PLAYER_TURN -> length (hands (player g)) <= i ->
     execute_move shuffle rules m i g = Raise IndexError g)
  /\ (forall m i g h, round_state g = PLAYER_TURN ->
     nth_error (hands (player g)) i = Some h -> length (cards h) = 2 ->
     execute_move shuffle rules m i g = Raise RecursionError g)
  /\ (forall m i g h, round_state g = PLAYER_TURN ->
     nth_error (hands (player g)) i = Some h -> is_done h = Some true ->
     execute_move shuffle rules m i g = Ret false g)
  /\ (forall m i g h, round_state g = PLAYER_TURN ->
     nth_error (hands (player g)) i = Some h -> is_done h = Some false ->
     ~ In m ["hit"; "stand"; "double"; "split"; "surrender"; "even_money"]%string ->
     execute_move shuffle rules m i g = Ret false g).
Proof.
  unfold execute_move. run.
  refine (conj _ (conj _ (conj _ (conj _ _)))).
  - intros m i g Hs. destruct (round_state g); try reflexivity. congruence.
  - intros m i g Hs Hi. rewrite Hs. cbn [round_state_eqb negb].
    apply nth_error_None in Hi. rewrite Hi. reflexivity.
  - intros m i g h Hs Hn Hl. rewrite Hs. cbn [round_state_eqb negb].
    rewrite Hn, (is_done_two h Hl). reflexivity.
  - intros m i g h Hs Hn Hd. rewrite Hs. cbn [round_state_eqb negb].
    rewrite Hn, Hd. reflexivity.
  - intros m i g h Hs Hn Hd Hm. rewrite Hs. cbn [round_state_eqb negb]. rewrite Hn, Hd.
    repeat match goal with
           | |- context [String.eqb m ?s] =>
               let E := fresh in
               destruct (String.eqb m s) eqn:E;
               [apply String.eqb_eq in E; subst m; exfalso; apply Hm; cbn; tauto|]
           end.
    reflexivity.
Qed.

(** X7: In the player's turn, 'stand' on a hand that is not done returns
    [True] and leaves the game unchanged. *)
Theorem execute_move_stand_noop (shuffle : list Card -> list Card)
    (rules : BlackjackRules) (g : Game) (i : nat) (h : Hand)
    (Hs : round_state g = PLAYER_TURN)
    (Hn : nth_error (hands (player g)) i = Some h) (Hd : is_done h = Some false) :
  execute_move shuffle rules "stand" i g = Ret true g.
Proof.
  unfold execute_move. run.
  rewrite Hs. cbn [round_state_eqb negb]. rewrite Hn, Hd.
  cbn [String.eqb Ascii.eqb Bool.eqb andb]. run.
  rewrite Hn. unfold check_hand_done. run. rewrite Hd. reflexivity.
Qed.

Lemma hit_keeps_state (shuffle : list Card -> list Card) (rules : BlackjackRules)
    (i : nat) (g g' : Game) (x : bool) :
  hit shuffle rules i g = Ret x g' -> round_state g' = round_state g.
Proof.
  intros H. unfold hit, validate, bind, gets, ret, raise, modify, get_hand, put_hand,
    get_dealer_upcard, lift in H.
  exec_steps H; try (unfold set_deck, set_player, set_hands in H; cbn -[deck_draw] in H);
    inversion H; subst; reflexivity.
Qed.

Lemma split_keeps_state (shuffle : list Card -> list Card) (rules : BlackjackRules)
    (i : nat) (g g' : Game) (x : bool) :
  split shuffle rules i g = Ret x g' -> round_state g' = round_state g.
Proof.
  intros H. unfold split, validate, bind, gets, ret, raise, modify, get_hand, put_hand,
    add_bankroll, map_stats, lift in H.
  exec_steps H; try (unfold set_deck, set_player, set_hands in H; cbn -[deck_draw] in H);
    inversion H; subst; reflexivity.
Qed.

Lemma double_down_keeps_state (shuffle : list Card -> list Card) (rules : BlackjackRules)
    (i : nat) (g g' : Game) (x : bool) :
  double_down shuffle rules i g = Ret x g' -> round_state g' = round_state g.
Proof.
  intros H. unfold double_down, validate, bind, gets, ret, raise, modify, get_hand, put_hand,
    add_bankroll, map_stats, lift in H.
  exec_steps H; try (unfold set_deck, set_player, set_hands in H; cbn -[deck_draw] in H);
    inversion H; subst; try reflexivity.
  all: match goal with
       | Eh : hit _ _ _ _ = Ret _ _ |- _ => rewrite (hit_keeps_state _ _ _ _ _ _ Eh); reflexivity
       end.
Qed.

Lemma surrender_outcome (rules : BlackjackRules) (i : nat) (g : Game) :
  surrender rules i g = Ret (false, 0%Q) g
  \/ exists e g', surrender rules i g = Raise e g'.
Proof.
  unfold surrender.
  match goal with
  | |- context [validate FSurrender ?b g] =>
      destruct (validate_outcome FSurrender b g) as [[e He]|He];
      rewrite He; [right; eauto|]
  end.
  run. destruct (nth_error (hands (player g)) i) as [h|]; [|right; eauto].
  destruct (can_surrender rules h) eqn:Hc; [|left; reflexivity]. cbn [negb].
  destruct (list_set (hands (player g)) i (set_surrendered h)); [|right; eauto].
  rewrite (hand_str_two (set_surrendered h) (can_surrender_two rules h Hc)).
  right; eauto.
Qed.

Lemma surrender_keeps_state (rules : BlackjackRules)
    (i : nat) (g g' : Game) (x : bool * Q) :
  surrender rules i g = Ret x g' -> round_state g' = round_state g.
Proof.
  intros H. destruct (surrender_outcome rules i g) as [E|[e [g1 E]]]; rewrite E in H;
    inversion H; reflexivity.
Qed.

Lemma take_even_money_keeps_state (rules : BlackjackRules)
    (i : nat) (g g' : Game) (x : bool * Q) :
  take_even_money rules i g = Ret x g' -> round_state g' = round_state g.
Proof.
  intros H. destruct (take_even_money_outcome rules i g) as [E|[e E]]; rewrite E in H;
    inversion H; reflexivity.
Qed.

Lemma move_keeps_state (shuffle : list Card -> list Card) (rules : BlackjackRules)
    (move : string) (i : nat) (g g1 : Game) (x : bool) :
  (if String.eqb move "hit" then hit shuffle rules i
   else if String.eqb move "stand" then ret true
   else if String.eqb move "double" then double_down shuffle rules i
   else if String.eqb move "split" then split shuffle rules i
   else if String.eqb move "surrender" then
     r <- surrender rules i ;; ret (fst r)
   else if String.eqb move "even_money" then
     r <- take_even_money rules i ;; ret (fst r)
   else ret false)%string g = Ret x g1 ->
  round_state g1 = round_state g.
Proof.
  destruct (String.eqb move "hit"); [apply hit_keeps_state|].
  destruct (String.eqb move "stand"); [intros H; inversion H; reflexivity|].
  destruct (String.eqb move "double"); [apply double_down_keeps_state|].
  destruct (String.eqb move "split"); [apply split_keeps_state|].
  unfold bind, ret.
  destruct (String.eqb move "surrender").
  { destruct (surrender rules i g) as [e g2|r g2] eqn:E; intros H; inversion H; subst.
    exact (surrender_keeps_state _ _ _ _ _ E). }
  destruct (String.eqb move "even_money").
  { destruct (take_even_money rules i g) as [e g2|r g2] eqn:E; intros H; inversion H; subst.
    exact (take_even_money_keeps_state _ _ _ _ _ E). }
  intros H; inversion H; reflexivity.
Qed.

(** X8: When [execute_move] returns [True], the round was in the player's
    turn.  Afterwards it is in the dealer's turn exactly when every hand is
    done, and otherwise it stays in the player's turn. *)
Theorem execute_move_dealer_turn (shuffle : list Card -> list Card) (rules : BlackjackRules)
    (move : string) (i : nat) (g g' : Game)
    (H : execute_move shuffle rules move i g = Ret true g') :
  round_state g = PLAYER_TURN
  /\ (round_state g' = DEALER_TURN <-> all_done (hands (player g')) = Some true)
  /\ (round_state g' = PLAYER_TURN \/ round_state g' = DEALER_TURN).
Proof.
  unfold execute_move in H. cbv beta iota delta [bind gets ret lift] in H.
  destruct (round_state g) eqn:Hs; cbn [round_state_eqb negb] in H; try discriminate H.
  unfold get_hand in H at 1.
  destruct (nth_error (hands (player g)) i) as [h|] eqn:Hn; [|discriminate H].
  destruct (is_done h) as [[|]|]; try discriminate H.
  split; [reflexivity|].
  match type of H with
  | context [match ?x with Raise _ _ => _ | Ret _ _ => _ end] =>
      destruct x as [e g1|b g1] eqn:Es; [discriminate H|]
  end.
  pose proof (move_keeps_state shuffle rules move i g g1 b Es) as Hs1. rewrite Hs in Hs1.
  destruct b; [|discriminate H].
  unfold get_hand in H.
  destruct (nth_error (hands (player g1)) i) as [h'|] eqn:Hn'; [|discriminate H].
  unfold check_hand_done in H. cbv beta iota delta [bind gets ret modify lift] in H.
  assert (Hin : In h' (hands (player g1))) by (eapply nth_error_In; exact Hn').
  destruct (is_done h') as [[|]|] eqn:Hd'; try discriminate H.
  - destruct (all_done (hands (player g1))) as [[|]|] eqn:Ha; inversion H; subst.
    + cbn. split; [split; auto|]. auto.
    + rewrite Hs1, Ha. split; [split; discriminate|]. auto.
  - inversion H; subst. rewrite Hs1.
    assert (Ha : all_done (hands (player g')) <> Some true).
    { intros Ha. rewrite (all_done_true_in _ _ Ha Hin) in Hd'. discriminate. }
    split; [split; [discriminate | intros E; contradiction]|]. auto.
Qed.

(** X11: [double_down] on a hand that passes [can_double], with a bet of at
    most the bankroll, always raises after debiting the bet, doubling it and
    counting the double.  The nested [hit] raises [GameError] when the
    bankroll is now at most 0, and [RecursionError] otherwise. *)
Theorem double_down_raises_after_debit (shuffle : list Card -> list Card)
    (rules : BlackjackRules) (g : Game) (i : nat) (h : Hand) (Hv : validated g)
    (Hn : nth_error (hands (player g)) i = Some h)
    (Hc : can_double rules h = true) (Hb : (bet h <= bankroll (player g))%Q) :
  exists e g', double_down shuffle rules i g = Raise e g'
  /\ bankroll (player g') = (bankroll (player g) + - bet h)%Q
  /\ nth_error (hands (player g')) i = Some (set_doubled h)
  /\ stats (player g') = stats_double (stats (player g)) (original_bet h)
  /\ deck g' = deck g /\ dealer_hand g' = dealer_hand g
  /\ (if Qle_b (bankroll (player g')) 0 then e = ErrNoFunds else e = RecursionError).
Proof.
  unfold double_down. rewrite validate_pass by (discriminate || exact Hv).
  run. rewrite Hn, Hc.
  assert (Hlt : Qlt_b (bankroll (player g)) (bet h) = false).
  { unfold Qlt_b. apply negb_false_iff, Qle_bool_iff, Hb. }
  rewrite Hlt. cbn [negb orb].
  assert (Hl : length (cards h) = 2).
  { unfold can_double in Hc. apply andb_true_iff in Hc as [Hc _].
    apply andb_true_iff in Hc as [Hc _]. apply andb_true_iff in Hc as [Hc _].
    apply Nat.eqb_eq, Hc. }
  destruct (put_hand_spec i (set_doubled h) (add_bankroll (- bet h) g))
    as [hs [Ep [_ [Hi _]]]]; [exact (nth_error_lt _ _ _ Hn)|].
  unfold put_hand in Ep. rewrite Ep.
  set (g1 := map_stats (fun st => stats_double st (original_bet h))
               (set_hands hs (add_bankroll (- bet h) g))).
  assert (Hk : deck_cards (deck g1) <> [] \/ discard_pile (deck g1) <> [])
    by exact (proj1 Hv).
  unfold hit, validate.
  destruct (match deck_cards (deck g1), discard_pile (deck g1) with
            | [], [] => true | _, _ => false end) eqn:Ek.
  { exfalso. destruct (deck_cards (deck g1)), (discard_pile (deck g1));
      [destruct Hk as [Hk|Hk]; apply Hk; reflexivity | discriminate ..]. }
  assert (Hg1 : bankroll (player g1) = (bankroll (player g) + - bet h)%Q) by reflexivity.
  assert (Hh1 : nth_error (hands (player g1)) i = Some (set_doubled h)) by exact Hi.
  destruct (Qle_b (bankroll (player g1)) 0) eqn:Hz.
  - do 2 eexists. split; [reflexivity|]. rewrite Hz. cbn. auto 7.
  - destruct Hv as [_ [_ [Hns Hnc]]].
    replace (round_state_eqb (round_state g1) NOT_STARTED) with false
      by (unfold g1; cbn; destruct (round_state g) eqn:Er; cbn; congruence).
    replace (round_state_eqb (round_state g1) COMPLETE) with false
      by (unfold g1; cbn; destruct (round_state g) eqn:Er; cbn; congruence).
    cbn [andb negb]. run. rewrite Hh1.
    rewrite (is_done_two (set_doubled h) Hl).
    do 2 eexists. split; [reflexivity|]. rewrite Hz. cbn. auto 7.
Qed.

(** X13: A successful [hit] appends one card drawn from the shoe to a hand
    that was not done and held neither one nor two cards.  The other hands,
    the bankroll, the statistics, the dealer's hand and the round state are
    unchanged. *)
Theorem hit_frame (shuffle : list Card -> list Card) (rules : BlackjackRules)
    (i : nat) (g g' : Game) (H : hit shuffle rules i g = Ret true g') :
  exists h c, nth_error (hands (player g)) i = Some h /\ is_done h = Some false
  /\ length (cards h) <> 1 /\ length (cards h) <> 2
  /\ deck_draw shuffle rules (deck g) = Drawn c (deck g')
  /\ nth_error (hands (player g')) i = Some (set_cards h (cards h ++ [c]))
  /\ (forall j, j <> i -> nth_error (hands (player g')) j = nth_error (hands (player g)) j)
  /\ bankroll (player g') = bankroll (player g) /\ stats (player g') = stats (player g)
  /\ dealer_hand g' = dealer_hand g /\ round_state g' = round_state g.
Proof.
  unfold hit in H.
  match type of H with
  | context [validate FHit ?bd g] =>
      destruct (validate_outcome FHit bd g) as [[e He]|He]; rewrite He in H;
      [discriminate|]
  end.
  cbv beta iota delta [bind gets ret get_hand lift] in H.
  destruct (nth_error (hands (player g)) i) as [h|] eqn:Hn; [|discriminate].
  destruct (is_done h) as [[|]|] eqn:Hd; try discriminate.
  unfold draw in H. destruct (deck_draw shuffle rules (deck g)) as [c d|d|d] eqn:Edr;
    [|discriminate|discriminate].
  destruct (add_card h c) as [h' added] eqn:Ea.
  destruct added as [[|]|];
    [| destruct (put_hand i h' (set_deck d g)); discriminate
     | destruct (put_hand i h' (set_deck d g)); discriminate].
  destruct (add_card_true h h' c Ea) as [_ [-> [H1 H2]]].
  destruct (put_hand_spec i (set_cards h (cards h ++ [c])) (set_deck d g))
    as [hs [Ep [_ [Hi Hj]]]]; [exact (nth_error_lt _ _ _ Hn)|].
  rewrite Ep in H.
  assert (Hl' : length (cards (set_cards h (cards h ++ [c]))) <> 2)
    by (cbn [set_cards cards]; rewrite length_snoc; lia).
  rewrite (hand_str_other _ Hl') in H. unfold get_dealer_upcard in H. cbn in H.
  destruct (cards (dealer_hand g)); [discriminate|].
  inversion H; subst. exists h, c. cbn. repeat split; auto.
Qed.

Lemma add_card_new_hand (c : Card) :
  add_card new_hand c = (set_cards new_hand [c], Some true).
Proof. rewrite (add_card_appends new_hand c eq_refl). reflexivity. Qed.

Lemma add_card_one_card (h : Hand) (c c' : Card) :
  cards h = [c] -> is_surrendered h = false -> took_even_money h = false ->
  add_card h c' = (set_cards h (cards h ++ [c']), None).
Proof.
  intros Hc Hs He. rewrite (add_card_appends h c' (one_card_not_done h c Hc Hs He)).
  rewrite Hc. reflexivity.
Qed.

Lemma deal_loop_outcome (shuffle : list Card -> list Card) (rules : BlackjackRules)
    (g : Game) (Hh : hands (player g) = [new_hand]) (Hd : dealer_hand g = new_hand) :
  match deal_loop shuffle rules 2 g with
  | Ret ok g' => ok = false
      /\ bankroll (player g') = bankroll (player g) /\ stats (player g') = stats (player g)
      /\ round_state g' = round_state g
  | Raise e g' => (e = IndexError \/ e = RecursionError)
      /\ bankroll (player g') = bankroll (player g) /\ stats (player g') = stats (player g)
      /\ round_state g' = round_state g
  end.
Proof.
  cbn [deal_loop]. unfold draw.
  repeat progress (
    run; cbn [deck set_deck set_hands set_dealer set_player player hands dealer_hand
              round_state bankroll stats];
    rewrite ?Hh, ?Hd; cbn [nth_error list_set option_map]; rewrite ?add_card_new_hand;
    try rewrite (add_card_one_card (set_cards new_hand [_]) _ _ eq_refl eq_refl eq_refl);
    try match goal with
        | |- context [deck_draw shuffle rules ?d] => destruct (deck_draw shuffle rules d)
        end).
  all: cbn; auto.
Qed.

(** X10: [start_round] never returns [True].  It raises one of its
    validation errors with the game unchanged; or, having debited the bet,
    it returns [False] or raises [IndexError] or [RecursionError], with the
    round still [NOT_STARTED]. *)
Theorem start_round_outcomes (shuffle : list Card -> list Card) (rules : BlackjackRules)
    (b : Q) (g : Game) :
  match start_round shuffle rules b g with
  | Ret ok g' => ok = false
      /\ bankroll (player g') = (bankroll (player g) + - b)%Q
      /\ round_state g' = NOT_STARTED /\ round_state g = NOT_STARTED
  | Raise e g' =>
      (g' = g /\ In e [ErrNoCards; ErrNoFunds; ErrPrevRound; ErrBetRange; ErrBetUnits;
                       ErrInsufficientFunds])
      \/ ((e = IndexError \/ e = RecursionError)
          /\ bankroll (player g') = (bankroll (player g) + - b)%Q
          /\ round_state g' = NOT_STARTED /\ round_state g = NOT_STARTED)
  end.
Proof.
  unfold start_round, validate. cbv beta.
  destruct (match deck_cards (deck g), discard_pile (deck g) with
            | [], [] => true | _, _ => false end).
  { left. split; [reflexivity|]. cbn. tauto. }
  destruct (Qle_b (bankroll (player g)) 0).
  { left. split; [reflexivity|]. cbn. tauto. }
  run. destruct (round_state g) eqn:Hs; cbn [round_state_eqb negb];
    try (left; split; [reflexivity|]; cbn; tauto).
  destruct (Qlt_b b (min_bet rules) || Qlt_b (max_bet rules) b).
  { left. split; [reflexivity|]. cbn. tauto. }
  destruct (negb (is_cents b)).
  { left. split; [reflexivity|]. cbn. tauto. }
  unfold place_bet. run.
  destruct (validate_bet (player g) b); cbn [negb].
  2:{ left. split; [reflexivity|]. cbn. tauto. }
  cbn [add_bankroll set_player player hands bankroll stats].
  destruct (hands (player g)) as [|h0 hs] eqn:Hh; cbn [nth_error].
  { right. split; [left; reflexivity|]. cbn. auto. }
  run. unfold add_bankroll. cbn [set_player player hands bankroll stats].
  rewrite Hh. cbn [list_set]. run.
  cbn [negb]. unfold deal_initial_cards. run.
  match goal with
  | |- context [deal_loop shuffle rules 2 ?g3] =>
      pose proof (deal_loop_outcome shuffle rules g3 eq_refl eq_refl) as D;
      destruct (deal_loop shuffle rules 2 g3) as [e g4|ok g4]
  end.
  - right. destruct D as [He [Hb [_ Hr]]]. split; [exact He|].
    rewrite Hb, Hr. cbn. auto.
  - destruct D as [-> [Hb [_ Hr]]]. cbn [negb]. run.
    rewrite Hb, Hr. cbn. auto.
Qed.

(** X14: [split] never returns [True]: after the pop both hands hold one
    card, so the [add_card] that gives either of them a second card raises
    [RecursionError] from [str] in its log.  In every outcome the number of
    hands, the bankroll and the statistics are unchanged. *)
Theorem split_never_succeeds (shuffle : list Card -> list Card) (rules : BlackjackRules)
    (i : nat) (g : Game) :
  match split shuffle rules i g with
  | Ret ok g' => ok = false
      /\ length (hands (player g')) = length (hands (player g))
      /\ bankroll (player g') = bankroll (player g) /\ stats (player g') = stats (player g)
  | Raise _ g' =>
      length (hands (player g')) = length (hands (player g))
      /\ bankroll (player g') = bankroll (player g) /\ stats (player g') = stats (player g)
  end.
Proof.
  unfold split, validate. cbv beta.
  destruct (match deck_cards (deck g), discard_pile (deck g) with
            | [], [] => true | _, _ => false end). { cbn; auto. }
  destruct (Qle_b (bankroll (player g)) 0). { cbn; auto. }
  destruct (round_state_eqb (round_state g) NOT_STARTED && negb false). { cbn; auto. }
  destruct (round_state_eqb (round_state g) COMPLETE && negb false). { cbn; auto. }
  run.
  destruct (max_splits rules + 1 <=? length (hands (player g))). { cbn; auto. }
  destruct (nth_error (hands (player g)) i) as [h|] eqn:Hn; [|cbn; auto].
  assert (Hi : i < length (hands (player g))) by (apply nth_error_Some; congruence).
  destruct (negb (can_split rules h)). { cbn; auto. }
  destruct (Qlt_b (bankroll (player g)) (original_bet h)). { cbn; auto. }
  destruct (pop_last (cards h)) as [[rest second]|]. 2:{ cbn; auto. }
  destruct (list_set_spec (hands (player g)) i (set_cards h rest) Hi) as [hs1 [E1 [L1 _]]].
  rewrite E1.
  rewrite (add_card_appends (mkHand [] (original_bet h) true false false
    (original_bet h) false 0%Q false) second eq_refl).
  run.
  cbn [cards length Nat.eqb]. run.
  destruct rest as [|first rest']. { cbn; auto. }
  cbn [hands set_hands player set_player].
  assert (Hi1 : i < length hs1) by lia.
  destruct (list_set_spec hs1 i (set_is_split (if is_ace first
      then set_split_from_aces (set_cards h (first :: rest'))
      else set_cards h (first :: rest'))) Hi1) as [hs2 [E2 [L2 _]]].
  rewrite E2. run.
  destruct (draw_outcome shuffle rules (set_hands hs2 (set_hands hs1 g)))
    as [[c1 [d1 Ed]]|[[d1 Ed]|[d1 Ed]]]; rewrite Ed.
  2,3: cbn; repeat split; auto; lia.
  destruct (add_card _ c1) as [oh4 added1].
  run. cbn [hands set_hands set_deck player set_player].
  assert (Hi2 : i < length hs2) by lia.
  destruct (list_set_spec hs2 i oh4 Hi2) as [hs3 [E3 [L3 _]]].
  rewrite E3. run.
  destruct added1 as [a1|]. 2:{ cbn. split; [lia|auto]. }
  run.
  destruct (draw_outcome shuffle rules
      (set_hands hs3 (set_deck d1 (set_hands hs2 (set_hands hs1 g)))))
    as [[c2 [d2 Ed2]]|[[d2 Ed2]|[d2 Ed2]]]; rewrite Ed2.
  2,3: cbn; repeat split; auto; lia.
  cbn [app].
  destruct (is_ace first);
    match goal with
    | |- context [add_card ?x c2] =>
        rewrite (add_card_one_card x second c2 eq_refl eq_refl eq_refl)
    end;
    cbn; repeat split; auto; lia.
Qed.



(** X9: When the first draw of a round finds the shoe exhausted,
    [play_round(b)] with a valid bet completes with a single Push of 0: the
    bet debited by [place_bet] is lost, because [deal_initial_cards]
    replaced the hand carrying it with a fresh hand of bet 0. *)
Theorem dead_round_loses_bet (shuffle : list Card -> list Card) (rules : BlackjackRules)
    (b : Q) (g : Game)
    (Hd : deck_cards (deck g) <> [] \/ discard_pile (deck g) <> [])
    (Hx : deck_draw shuffle rules (deck g) = Exhausted (deck g))
    (Hf : Qlt_b 0 (bankroll (player g)) = true)
    (Hs : round_state g = NOT_STARTED)
    (Hr : Qlt_b b (min_bet rules) || Qlt_b (max_bet rules) b = false)
    (Hc : is_cents b = true)
    (Hv : validate_bet (player g) b = true)
    (Hh : hands (player g) <> []) :
  exists rr g', play_round shuffle rules b g = Ret rr g'
    /\ hand_results rr = [(PUSH, 0%Q)]
    /\ (bankroll (player g') == bankroll (player g) - b)%Q
    /\ round_state g' = COMPLETE
    /\ hands (player g') = [new_hand]
    /\ stats (player g')
       = incr_played (update_counts (stats_bet (stats (player g)) b) PUSH 0 new_hand).
Proof.
  unfold play_round. rewrite (validate_checks_pass _ _ g Hd Hf). cbv beta iota.
  run. unfold start_round. rewrite (validate_checks_pass _ _ g Hd Hf). run.
  rewrite Hs, Hr. cbn [round_state_eqb negb]. rewrite Hc. cbn [negb].
  unfold place_bet. run. rewrite Hv. cbn [negb].
  destruct (hands (player g)) as [|h0 hs] eqn:Eh; [congruence|].
  unfold add_bankroll. cbn [nth_error set_player player hands bankroll stats].
  rewrite Eh. cbn [list_set]. run. cbn [negb].
  assert (E1 : is_done new_hand = Some false) by reflexivity.
  assert (E2 : hand_str new_hand = Some tt) by reflexivity.
  assert (E3 : all_str [new_hand] = Some tt) by reflexivity.
  unfold deal_initial_cards, draw, handle_dead_hand, round_result.
  repeat progress (run; cbn [andb negb deck set_deck set_dealer set_hands set_player
    map_stats set_state player hands bankroll stats dealer_hand nth_error list_set
    deal_loop dead_loop fst snd]; try unfold draw;
    rewrite ?Hx, ?E1, ?E2, ?E3).
  eexists _, _. split; [reflexivity|]. cbn.
  repeat split. ring.
Qed.

Lemma sixteen_game_validated : validated sixteen_game.
Proof. solve_validated. Qed.

Lemma starved_game_validated : validated starved_game.
Proof. solve_validated. Qed.

Lemma split_aces_game_validated : validated split_aces_game.
Proof. solve_validated. Qed.

Lemma spent_eleven_game_validated : validated spent_eleven_game.
Proof. solve_validated. Qed.

(** C1, on a 16 against a dealer 17. *)
Lemma surrender_settlement_raises_witness :
  validated sixteen_game
  /\ hands (player sixteen_game) = [hand_of [mkCard Spades R10; mkCard Spades R6] 10]
  /\ can_surrender one_deck_rules (hand_of [mkCard Spades R10; mkCard Spades R6] 10) = true
  /\ exists g', surrender one_deck_rules 0 sixteen_game = Raise RecursionError g'
     /\ (bankroll (player g') == 95)%Q
     /\ hands_played (stats (player g')) = 0
     /\ finish_round shuffle_rev one_deck_rules g' = Raise RecursionError g'.
Proof.
  split; [exact sixteen_game_validated|]. split; [reflexivity|]. split; [reflexivity|].
  destruct (proj1 (surrender_settlement_raises shuffle_rev one_deck_rules sixteen_game
    (hand_of [mkCard Spades R10; mkCard Spades R6] 10) [] sixteen_game_validated
    eq_refl eq_refl ltac:(apply Qle_bool_iff; reflexivity) ltac:(discriminate)))
    as [g' [H1 [H2 [_ [_ [H5 [_ H7]]]]]]].
  exists g'. split; [exact H1|]. split; [rewrite H2; reflexivity|].
  split; [exact H5 | exact H7].
Defined.

(** C3, on [starved_game]: the player's first hand holds two cards. *)
Lemma dead_hand_settlement_raises_witness :
  validated starved_game
  /\ exists g', finish_round shuffle_rev one_deck_rules starved_game = Raise RecursionError g'
     /\ player g' = player starved_game.
Proof.
  split; [exact starved_game_validated|].
  destruct (dead_hand_settlement_raises shuffle_rev one_deck_rules starved_game
    starved_game_validated
    (or_introl (ex_intro _ (hand_of [mkCard Spades R10; mkCard Spades R2] 10)
      (ex_intro _ [] (conj eq_refl eq_refl))))) as [g' [H1 [H2 _]]].
  exists g'. split; [exact H1 | exact H2].
Defined.

(** C6, on two naturals. *)
Lemma resolve_both_naturals_raise_witness :
  let h := hand_of [mkCard Spades A; mkCard Spades K] 10 in
  let dh := hand_of [mkCard Hearts A; mkCard Hearts Q_] 0 in
  is_surrendered h = false /\ length (cards h) = 2
  /\ resolve_hand default_rules dh h = None.
Proof.
  intros h dh. split; [reflexivity|]. split; [reflexivity|].
  exact (proj1 (resolve_both_naturals_raise default_rules dh h eq_refl (or_introl eq_refl))).
Defined.

(** C7, on an ace split into [A; 5]. *)
Lemma split_aces_two_cards_raise_witness :
  let h := mkHand [mkCard Spades A; mkCard Hearts R5] 10 true false false 10 true 0 false in
  split_from_aces h = true /\ length (cards h) = 2
  /\ is_done h = None
  /\ hit shuffle_rev one_deck_rules 0 split_aces_game = Raise RecursionError split_aces_game.
Proof.
  intros h. split; [reflexivity|]. split; [reflexivity|].
  destruct (split_aces_two_cards_raise h (mkCard Hearts R9) eq_refl eq_refl)
    as [H1 [_ [H3 _]]].
  split; [exact H1|].
  exact (H3 shuffle_rev one_deck_rules split_aces_game 0 split_aces_game_validated eq_refl).
Defined.

(** X1, on a dealer 16 in three cards. *)
Lemma play_dealer_hand_stands_witness :
  exists g', play_dealer_hand shuffle_rev one_deck_rules dealer_three_card_game = Ret true g'
  /\ exists v, get_value (dealer_hand g') = Some (v, false)
     /\ (17 < v \/ (v = 17 /\ is_soft (dealer_hand g') = false)).
Proof.
  exists (match play_dealer_hand shuffle_rev one_deck_rules dealer_three_card_game with
          | Ret _ g | Raise _ g => g end).
  assert (H : play_dealer_hand shuffle_rev one_deck_rules dealer_three_card_game
              = Ret true (match play_dealer_hand shuffle_rev one_deck_rules
                                  dealer_three_card_game with
                          | Ret _ g | Raise _ g => g end)) by (vm_compute; reflexivity).
  split; [exact H|].
  exact (play_dealer_hand_stands shuffle_rev one_deck_rules dealer_three_card_game _
           eq_refl eq_refl eq_refl eq_refl H).
Defined.


(** X4, on a three-card 15 against a dealer 10. *)
Lemma get_strategy_move_live_witness :
  let h := hand_of [mkCard Spades R10; mkCard Spades R2; mkCard Spades R3] 10 in
  2 <= length (cards h) /\ is_done h = Some false
  /\ exists a m, get_action (strategy_hand h) (strategy_label (rank (mkCard Hearts R10)))
                 = Some a
     /\ get_strategy_move one_deck_rules h (mkCard Hearts R10) three_card_game
        = Ret (Some m) three_card_game
     /\ (m = "hit"%string \/ m = "stand"%string).
Proof.
  intros h. assert (H1 : 2 <= length (cards h)) by (cbn; lia).
  assert (H2 : is_done h = Some false) by reflexivity.
  split; [exact H1|]. split; [exact H2|].
  exact (get_strategy_move_live one_deck_rules h (mkCard Hearts R10) three_card_game H1 H2).
Defined.

(** X7, on a three-card 15. *)
Lemma execute_move_stand_noop_witness :
  let h := hand_of [mkCard Spades R10; mkCard Spades R2; mkCard Spades R3] 10 in
  round_state three_card_game = PLAYER_TURN
  /\ nth_error (hands (player three_card_game)) 0 = Some h
  /\ is_done h = Some false
  /\ execute_move shuffle_rev one_deck_rules "stand" 0 three_card_game
     = Ret true three_card_game.
Proof.
  intros h.
  assert (H1 : round_state three_card_game = PLAYER_TURN) by reflexivity.
  assert (H2 : nth_error (hands (player three_card_game)) 0 = Some h) by reflexivity.
  assert (H3 : is_done h = Some false) by reflexivity.
  split; [exact H1|]. split; [exact H2|]. split; [exact H3|].
  exact (execute_move_stand_noop shuffle_rev one_deck_rules three_card_game 0 h H1 H2 H3).
Defined.

(** X8, a hit that busts a three-card 21. *)
Lemma execute_move_dealer_turn_witness :
  exists g', execute_move shuffle_rev one_deck_rules "hit" 0 three_card_21_game = Ret true g'
  /\ round_state g' = DEALER_TURN
  /\ all_done (hands (player g')) = Some true.
Proof.
  exists (match execute_move shuffle_rev one_deck_rules "hit" 0 three_card_21_game with
          | Ret _ g | Raise _ g => g end).
  assert (H : execute_move shuffle_rev one_deck_rules "hit" 0 three_card_21_game
              = Ret true (match execute_move shuffle_rev one_deck_rules "hit" 0
                                  three_card_21_game with
                          | Ret _ g | Raise _ g => g end)) by (vm_compute; reflexivity).
  split; [exact H|].
  destruct (execute_move_dealer_turn shuffle_rev one_deck_rules "hit" 0 three_card_21_game _ H)
    as [_ [Hiff _]].
  assert (Hd : round_state (match execute_move shuffle_rev one_deck_rules "hit" 0
                                   three_card_21_game with
                           | Ret _ g | Raise _ g => g end) = DEALER_TURN)
    by (vm_compute; reflexivity).
  split; [exact Hd | exact (proj1 Hiff Hd)].
Defined.

(** X11, on 11 with a spent shoe. *)
Lemma double_down_raises_after_debit_witness :
  let h := hand_of [mkCard Spades R5; mkCard Spades R6] 10 in
  validated spent_eleven_game
  /\ nth_error (hands (player spent_eleven_game)) 0 = Some h
  /\ can_double one_deck_rules h = true
  /\ exists e g', double_down shuffle_rev one_deck_rules 0 spent_eleven_game = Raise e g'
     /\ (bankroll (player g') == 980)%Q /\ e = RecursionError.
Proof.
  intros h.
  assert (H2 : nth_error (hands (player spent_eleven_game)) 0 = Some h) by reflexivity.
  assert (H3 : can_double one_deck_rules h = true) by reflexivity.
  split; [exact spent_eleven_game_validated|]. split; [exact H2|]. split; [exact H3|].
  destruct (double_down_raises_after_debit shuffle_rev one_deck_rules spent_eleven_game 0 h
    spent_eleven_game_validated H2 H3 ltac:(apply Qle_bool_iff; reflexivity))
    as [e [g' [H1 [Hb [_ [_ [_ [_ He]]]]]]]].
  exists e, g'. split; [exact H1|].
  assert (Hb' : (bankroll (player g') == 980)%Q) by (rewrite Hb; reflexivity).
  split; [exact Hb'|].
  rewrite Hb in He. exact He.
Defined.

(** X13, on a three-card 15. *)
Lemma hit_frame_witness :
  exists g', hit shuffle_rev one_deck_rules 0 three_card_game = Ret true g'
  /\ exists h c, nth_error (hands (player three_card_game)) 0 = Some h
     /\ nth_error (hands (player g')) 0 = Some (set_cards h (cards h ++ [c]))
     /\ bankroll (player g') = bankroll (player three_card_game).
Proof.
  exists (match hit shuffle_rev one_deck_rules 0 three_card_game with
          | Ret _ g | Raise _ g => g end).
  assert (H : hit shuffle_rev one_deck_rules 0 three_card_game
              = Ret true (match hit shuffle_rev one_deck_rules 0 three_card_game with
                          | Ret _ g | Raise _ g => g end)) by (vm_compute; reflexivity).
  split; [exact H|].
  destruct (hit_frame shuffle_rev one_deck_rules 0 three_card_game _ H)
    as [h [c [Hn [_ [_ [_ [_ [Hn' [_ [Hb _]]]]]]]]]].
  exists h, c. split; [exact Hn|]. split; [exact Hn' | exact Hb].
Defined.

(** X9, on [exhausted_game]. *)
Lemma dead_round_loses_bet_witness :
  deck_draw shuffle_rev one_deck_rules (deck exhausted_game) = Exhausted (deck exhausted_game)
  /\ round_state exhausted_game = NOT_STARTED
  /\ exists rr g', play_round shuffle_rev one_deck_rules 10 exhausted_game = Ret rr g'
     /\ hand_results rr = [(PUSH, 0%Q)]
     /\ (bankroll (player g') == bankroll (player exhausted_game) - 10)%Q.
Proof.
  assert (Hx : deck_draw shuffle_rev one_deck_rules (deck exhausted_game)
               = Exhausted (deck exhausted_game)) by (vm_compute; reflexivity).
  assert (Hs : round_state exhausted_game = NOT_STARTED) by (vm_compute; reflexivity).
  split; [exact Hx|]. split; [exact Hs|].
  destruct (dead_round_loses_bet shuffle_rev one_deck_rules 10 exhausted_game
    ltac:(right; vm_compute; discriminate) Hx ltac:(vm_compute; reflexivity) Hs
    ltac:(vm_compute; reflexivity) ltac:(vm_compute; reflexivity)
    ltac:(vm_compute; reflexivity) ltac:(vm_compute; discriminate))
    as [rr [g' [H1 [H2 [H3 _]]]]].
  exists rr, g'. split; [exact H1|]. split; [exact H2 | exact H3].
Defined.

(** C2, on a spent single-deck shoe: the discard (52 cards) is not below
    [52 * (1 - 0.8)], so the draw reports exhaustion. *)
Lemma draw_empty_reshuffle_or_exhausted_witness :
  (forall l, length (shuffle_rev l) = length l)
  /\ deck_cards spent_deck = []
  /\ length (discard_pile spent_deck) = number_of_decks one_deck_rules * 52
  /\ deck_draw shuffle_rev one_deck_rules spent_deck = Exhausted spent_deck.
Proof.
  refine (conj (fun l => length_rev l) (conj eq_refl (conj eq_refl _))).
  exact (draw_empty_reshuffle_or_exhausted shuffle_rev one_deck_rules spent_deck
    (fun l => length_rev l) eq_refl eq_refl).
Defined.

(** C9, on a freshly built single-deck shoe. *)
Lemma draw_keeps_shoe_size_witness :
  (forall l, length (shuffle_rev l) = length l)
  /\ length (deck_cards (deck_reset shuffle_rev one_deck_rules))
     + length (discard_pile (deck_reset shuffle_rev one_deck_rules))
     = number_of_decks one_deck_rules * 52
  /\ draw_respects_shoe shuffle_rev one_deck_rules (deck_reset shuffle_rev one_deck_rules).
Proof.
  refine (conj (fun l => length_rev l) (conj eq_refl _)).
  exact (draw_keeps_shoe_size shuffle_rev one_deck_rules
    (deck_reset shuffle_rev one_deck_rules) (fun l => length_rev l) eq_refl).
Defined.

(** C10, after an all-in [double_down]: it debits the bankroll to 0 and
    then raises from its nested [hit]; from there [finish_round] raises. *)
Lemma no_funds_every_action_raises_witness :
  double_down shuffle_rev one_deck_rules 0 all_in_game = Raise ErrNoFunds all_in_doubled
  /\ (bankroll (player all_in_doubled) <= 0)%Q
  /\ raises_game_error (finish_round shuffle_rev one_deck_rules all_in_doubled)
       all_in_doubled.
Proof.
  assert (Hb : (bankroll (player all_in_doubled) <= 0)%Q).
  { apply Qle_bool_iff. vm_compute. reflexivity. }
  split; [vm_compute; reflexivity|]. split; [exact Hb|].
  exact (proj1 (proj2 (proj2 (proj2 (proj2 (proj2 (proj2
    (no_funds_every_action_raises shuffle_rev one_deck_rules all_in_doubled Hb)))))))).
Defined.

(** X2, with [shuffle_rev]. *)
Lemma deck_reset_each_card_per_deck_witness :
  (forall l, Permutation l (shuffle_rev l))
  /\ discard_pile (deck_reset shuffle_rev one_deck_rules) = []
  /\ length (deck_cards (deck_reset shuffle_rev one_deck_rules)) = 1 * 52
  /\ (forall c, count_occ card_eq_dec (deck_cards (deck_reset shuffle_rev one_deck_rules)) c = 1).
Proof.
  assert (Hp : forall l, Permutation l (shuffle_rev l)) by (intros l; apply Permutation_rev).
  split; [exact Hp|].
  exact (deck_reset_each_card_per_deck shuffle_rev one_deck_rules Hp).
Defined.

Lemma insurance_game_validated : validated insurance_game.
Proof.
  unfold validated. cbn. split; [left; discriminate|].
  split; [reflexivity|]. split; discriminate.
Qed.

(** X12, on 19 against a dealer ace. *)
Lemma place_insurance_twice_witness :
  validated insurance_game
  /\ exists g1 g2, place_insurance one_deck_rules 0 insurance_game = Ret true g1
  /\ place_insurance one_deck_rules 0 g1 = Ret true g2
  /\ bankroll (player g2) = (90 + - (10 * (1 # 2)) + - (10 * (1 # 2)))%Q
  /\ nth_error (hands (player g2)) 0
     = Some (set_insurance (hand_of [mkCard Spades R10; mkCard Spades R9] 10) (10 * (1 # 2)))
  /\ stats (player g2)
     = stats_insurance (stats_insurance zero_stats (10 * (1 # 2))) (10 * (1 # 2)).
Proof.
  split; [exact insurance_game_validated|].
  exact (place_insurance_twice one_deck_rules insurance_game 0
           (hand_of [mkCard Spades R10; mkCard Spades R9] 10) [mkCard Hearts R7]
           (mkCard Hearts A) insurance_game_validated eq_refl eq_refl eq_refl eq_refl
           ltac:(vm_compute; discriminate)).
Defined.
